(** * render3/component.ts: component host runtime

    A shallow embedding of [packages/core/src/render3/component.ts]: the
    bootstrap of a component on a host element ([renderComponent],
    [createComponentRef]), the change detector ([detectChanges]), the dirty
    scheduler ([markDirty]), the host element accessor ([getHostElement]) and
    the destroyable view reference ([createViewRef], [addDestroyable]).

    JavaScript's mutable globals and objects are threaded through an explicit
    [State]; exceptions are the [Throw] case of [Result].  The collaborators
    the file imports but does not define (renderer factory, host locator, view
    instruction interpreter, application supplied functions) are the fields of
    an [Env] record and may read and write the whole state; the instructions
    whose contract the design fixes ([enterView], [leaveView], [hostElement],
    [directive]) are modelled from it. *)

From Stdlib Require Import ZArith String.
From stdpp Require Import base option list gmap.

Local Open Scope Z_scope.
Local Open Scope list_scope.

(** ** Values *)

Abbreviation loc := positive (only parsing).

(** The functions of this file that are passed around with [Function.bind]. *)
Inductive Builtin := DetectChanges.

(** JavaScript values.  Objects are heap identities; a function value is
    either supplied by the application, the host environment's
    [requestAnimationFrame], or the result of [target.bind(thisArg, ...args)]. *)
Inductive Value :=
| VUndefined
| VNull
| VNum (n : Z)
| VStr (s : string)
| VObj (l : loc)
| VFn (f : Fn)
with Fn :=
| AppFn (id : positive)
| RequestAnimationFrame
| Bound (target : Builtin) (thisArg : Value) (boundArgs : list Value).

(** [v == null] *)
Definition is_nullish (v : Value) : bool :=
  match v with VUndefined | VNull => true | _ => false end.

(** A native surface handle ([RElement]). *)
Inductive RElement := RNode (id : positive).

(** A renderer capability returned by [RendererFactory3.createRenderer]. *)
Inductive Renderer3 := RendererObj (id : positive).

Inductive RendererFactory3 := domRendererFactory3 | AppRendererFactory (id : positive).

Inductive Injector := NULL_INJECTOR | AppInjector (id : positive).

(** [host?: RElement|string] *)
Inductive HostRef := HostElement (r : RElement) | HostSelector (s : string).

Record ComponentDef := {
  def_id : loc;              (* identity of the definition object *)
  tag : string;
  n : Fn;                    (* factory *)
  rendererType : Value
}.

Record ComponentType := { ngComponentDef : ComponentDef }.

Record CreateComponentOptionArgs := {
  opt_rendererFactory : option RendererFactory3;
  opt_host : option HostRef;
  opt_injector : option Injector;
  opt_features : option (list Fn)
}.

(** [opts = {}] *)
Definition no_opts : CreateComponentOptionArgs :=
  {| opt_rendererFactory := None; opt_host := None; opt_injector := None; opt_features := None |}.

(** The host node record ([LElement]); the fields this file reads. *)
Record LElement := {
  native : RElement;
  data : option loc;         (* ViewState of the component, or null *)
  view : loc                 (* ViewState the node belongs to *)
}.

Inductive Slot := SHole | SNode (node : LElement) | SValue (v : Value).

Record ViewState := {
  vs_id : Z;
  vs_renderer : Renderer3;
  vs_data : list Slot
}.

(** The object built by [createViewRef] / [addDestroyable].  [markForCheck],
    [detach], [checkNoChanges] and [reattach] are the same closures in every
    such object and are the definitions of those names below; [destroyFn] is
    the variable captured by [destroy] and [onDestroy]. *)
Record ViewRefObj := {
  vr_detectChanges : Fn;
  destroyed : bool;
  destroyFn : option (list Fn)
}.

Record ComponentRef := {
  location_nativeElement : RElement;
  injector : Injector;
  instance : Value;
  hostView : loc;
  changeDetectorRef : loc;
  componentType : ComponentType
}.

(** ** Errors and results *)

Inductive Error :=
| AssertionError (name : string)               (* assertNotNull *)
| RendererError (text : string) (token : Value) (* createError *)
| NotImplementedError                          (* notImplemented() *)
| NullInjectorError (token : Value)
| TypeError (detail : string)                  (* the language's own failure *)
| AppError (e : Value).                        (* raised by application code *)

(** Failures raised by the runtime's own diagnostics, as opposed to the
    language's [TypeError] and errors of the application. *)
Definition is_diagnostic (e : Error) : bool :=
  match e with
  | AssertionError _ | RendererError _ _ | NotImplementedError => true
  | _ => false
  end.

Inductive Result (A : Type) := Ok (a : A) | Throw (e : Error).
Arguments Ok {A} a.
Arguments Throw {A} e.

(** A call of an application supplied function made by this file. *)
Inductive Event := EvCall (id : positive) (args : list Value).

Section Runtime.

(** The state of everything outside this core (the DOM, the application). *)
Context {W : Type}.

(** ** State *)

Record State := mkState {
  currentView : option loc;            (* instructions.ts: the current view *)
  isDirty : bool;                      (* component.ts: [let isDirty] *)
  viewStates : gmap loc ViewState;     (* heap: ViewState objects *)
  hostSymbol : gmap loc LElement;      (* heap: [obj[NG_HOST_SYMBOL]] *)
  viewRefs : gmap loc ViewRefObj;      (* heap: objects of [addDestroyable] *)
  frameQueue : list Fn;                (* callbacks waiting for the next frame *)
  nextLoc : loc;                       (* heap allocator *)
  trace : list Event;                  (* application functions called so far *)
  world : W
}.

Definition set_currentView (v : option loc) (st : State) : State :=
  mkState v (isDirty st) (viewStates st) (hostSymbol st) (viewRefs st)
          (frameQueue st) (nextLoc st) (trace st) (world st).
Definition set_isDirty (b : bool) (st : State) : State :=
  mkState (currentView st) b (viewStates st) (hostSymbol st) (viewRefs st)
          (frameQueue st) (nextLoc st) (trace st) (world st).
Definition set_viewStates (m : gmap loc ViewState) (st : State) : State :=
  mkState (currentView st) (isDirty st) m (hostSymbol st) (viewRefs st)
          (frameQueue st) (nextLoc st) (trace st) (world st).
Definition set_hostSymbol (m : gmap loc LElement) (st : State) : State :=
  mkState (currentView st) (isDirty st) (viewStates st) m (viewRefs st)
          (frameQueue st) (nextLoc st) (trace st) (world st).
Definition set_viewRefs (m : gmap loc ViewRefObj) (st : State) : State :=
  mkState (currentView st) (isDirty st) (viewStates st) (hostSymbol st) m
          (frameQueue st) (nextLoc st) (trace st) (world st).
Definition set_frameQueue (q : list Fn) (st : State) : State :=
  mkState (currentView st) (isDirty st) (viewStates st) (hostSymbol st) (viewRefs st)
          q (nextLoc st) (trace st) (world st).
Definition set_nextLoc (l : loc) (st : State) : State :=
  mkState (currentView st) (isDirty st) (viewStates st) (hostSymbol st) (viewRefs st)
          (frameQueue st) l (trace st) (world st).
Definition set_trace (t : list Event) (st : State) : State :=
  mkState (currentView st) (isDirty st) (viewStates st) (hostSymbol st) (viewRefs st)
          (frameQueue st) (nextLoc st) t (world st).

(** ** The state and exception monad *)

Definition M (A : Type) : Type := State -> Result A * State.

Definition ret {A} (a : A) : M A := fun st => (Ok a, st).
Definition throw {A} (e : Error) : M A := fun st => (Throw e, st).
Definition bind {A B} (m : M A) (k : A -> M B) : M B :=
  fun st => match m st with
            | (Ok a, st1) => k a st1
            | (Throw e, st1) => (Throw e, st1)
            end.

Notation "x <- m ;; k" := (bind m (fun x => k))
  (at level 100, m at next level, right associativity).
Notation "m ;; k" := (bind m (fun _ => k))
  (at level 100, right associativity).

Definition gets {A} (f : State -> A) : M A := fun st => (Ok (f st), st).
Definition modify (f : State -> State) : M unit := fun st => (Ok tt, f st).

(** [cond && stmt] and [if (cond) stmt] *)
Definition when (b : bool) (m : M unit) : M unit := if b then m else ret tt.

(** [try { body } finally { fin }]: [fin] runs on both exits of [body]; an
    error of [fin] replaces the outcome of [body]. *)
Definition try_finally {A} (body : M A) (fin : M unit) : M A :=
  fun st => match body st with
            | (r, st1) => match fin st1 with
                          | (Ok _, st2) => (r, st2)
                          | (Throw e, st2) => (Throw e, st2)
                          end
            end.

(** [l.forEach(f)] over an array nobody shrinks while it is traversed. *)
Fixpoint forEach {A} (l : list A) (f : A -> M unit) : M unit :=
  match l with
  | [] => ret tt
  | x :: l' => f x ;; forEach l' f
  end.

(** ** Collaborators *)

(** A collaborator reads and writes the state. *)
Definition Ext (A : Type) : Type := State -> Result A * State.

Record Env := {
  ngDevMode : bool;
  (* instructions.ts / renderer.ts *)
  locateHostElement : RendererFactory3 -> HostRef -> Ext RElement;
  createRenderer : RendererFactory3 -> RElement -> Value -> Ext Renderer3;
  renderComponentOrTemplate : LElement -> loc -> Value -> Ext unit;
  createError : string -> Value -> Ext Value;
  (* util.ts: the error that [throw notImplemented()] raises *)
  notImplemented : Error;
  (* the bodies of the functions the application supplies: factories,
     features, schedulers, destroy callbacks *)
  applyFn : positive -> list Value -> Ext Value
}.

Variable E : Env.

(** Running a collaborator.  The [trace] is the observer's record of the calls
    made by this file; a collaborator cannot rewrite it. *)
Definition ext {A} (f : Ext A) : M A :=
  fun st => match f st with (r, st1) => (r, set_trace (trace st) st1) end.

Definition emit (ev : Event) : M unit :=
  modify (fun st => set_trace (trace st ++ [ev]) st).

(** ** assert.ts *)

(** Modelled from the spec: [assertNotNull] (assert.ts is not part of the
    sources) fails in a diagnostics build when the value is empty. *)
Definition assertNotNull (actualIsNull : bool) (name : string) : M unit :=
  if actualIsNull then throw (AssertionError name) else ret tt.

(** ** instructions.ts *)

Definition alloc : M loc :=
  fun st => (Ok (nextLoc st), set_nextLoc (Pos.succ (nextLoc st)) st).

(** Modelled from the spec: [createViewState(viewId, renderer, data)] makes a
    fresh render context with the given index marker, renderer and per-node
    data. *)
Definition createViewState (viewId : Z) (renderer : Renderer3) (d : list Slot) : M loc :=
  l <- alloc ;;
  modify (fun st => set_viewStates
            (<[l := {| vs_id := viewId; vs_renderer := renderer; vs_data := d |}]> (viewStates st)) st) ;;
  ret l.

(** Modelled from the spec: [enterView(context, host)] makes [context] the
    current one and returns whatever was current before. *)
Definition enterView (newView : loc) (host : option LElement) : M (option loc) :=
  old <- gets currentView ;;
  modify (set_currentView (Some newView)) ;;
  ret old.

(** Modelled from the spec: [leaveView(previous)] restores [previous] as the
    current context. *)
Definition leaveView (previous : option loc) : M unit :=
  modify (set_currentView previous).

(** [a[i] = x] on a JavaScript array: an index past the end extends it. *)
Definition array_set (i : nat) (x : Slot) (a : list Slot) : list Slot :=
  if (i <? length a)%nat then <[i := x]> a
  else a ++ replicate (i - length a) SHole ++ [x].

Definition current_view_state : M (loc * ViewState) :=
  cur <- gets currentView ;;
  match cur with
  | None => throw (TypeError "no current view")
  | Some v =>
      vs <- gets (fun st => viewStates st !! v) ;;
      match vs with
      | None => throw (TypeError "no current view")
      | Some s => ret (v, s)
      end
  end.

Definition store_slot (v : loc) (s : ViewState) (i : nat) (x : Slot) : M unit :=
  modify (fun st => set_viewStates
            (<[v := {| vs_id := vs_id s; vs_renderer := vs_renderer s;
                       vs_data := array_set i x (vs_data s) |}]> (viewStates st)) st).

(** Modelled from the spec: [hostElement(rNode, def)] creates the root native
    element entry at index 0 of the current context: the host node record of
    the native handle [rNode], with fresh (non-empty) render data bound to
    that element. *)
Definition hostElement (rNode : RElement) (def : ComponentDef) : M unit :=
  cur <- current_view_state ;;
  let '(v, s) := cur in
  d <- createViewState (-1) (vs_renderer s) [] ;;
  store_slot v s 0 (SNode {| native := rNode; data := Some d; view := v |}).

(** Modelled from the spec: [directive(index, instance, def)] stores the
    instance at [index] of the per-node data of the current context and
    attaches the back-reference from the instance to the host node record (the
    element entry at index 0); it returns the instance.  The hidden field can
    be attached to a heap object only. *)
Definition directive (index : nat) (inst : Value) (def : ComponentDef) : M Value :=
  cur <- current_view_state ;;
  let '(v, s) := cur in
  match vs_data s !! 0%nat, inst with
  | Some (SNode node), VObj l =>
      modify (fun st => set_hostSymbol (<[l := node]> (hostSymbol st)) st) ;;
      store_slot v s index (SValue inst) ;;
      ret inst
  | _, _ => throw (TypeError "cannot attach NG_HOST_SYMBOL")
  end.

(** ** component.ts *)

(** [(component as any)[NG_HOST_SYMBOL]]: reading a property of [null] or
    [undefined] is a TypeError; a value without the property gives
    [undefined]. *)
Definition read_NG_HOST_SYMBOL (component : Value) : M (option LElement) :=
  match component with
  | VUndefined | VNull => throw (TypeError "cannot read property of null or undefined")
  | VObj l => gets (fun st => hostSymbol st !! l)
  | _ => ret None
  end.

(** [hostNode.name] where [hostNode] may be [undefined]. *)
Definition field {A} (hostNode : option LElement) (name : string) (proj : LElement -> A) : M A :=
  match hostNode with
  | None => throw (TypeError name)
  | Some node => ret (proj node)
  end.

Definition detectChanges (component : Value) : M unit :=
  when (ngDevMode E) (assertNotNull (is_nullish component) "component") ;;
  hostNode <- read_NG_HOST_SYMBOL component ;;
  when (ngDevMode E && negb (bool_decide (is_Some hostNode)))
       (_ <- ext (createError E "Not a directive instance" component) ;; ret tt) ;;
  when (ngDevMode E)
       (d <- field hostNode "data" data ;;
        assertNotNull (bool_decide (d = None)) "hostNode.data") ;;
  nv <- field hostNode "view" (fun node => (node, view node)) ;;
  ext (renderComponentOrTemplate E (fst nv) (snd nv) component) ;;
  modify (set_isDirty false).

(** [f(...args)] for a function value [f]. *)
Definition call (f : Fn) (args : list Value) : M Value :=
  match f with
  | AppFn id => emit (EvCall id args) ;; ext (applyFn E id args)
  | RequestAnimationFrame =>
      match args with
      | VFn cb :: _ => modify (fun st => set_frameQueue (frameQueue st ++ [cb]) st) ;; ret (VNum 0)
      | _ => throw (TypeError "callback is not a function")
      end
  | Bound DetectChanges _ boundArgs =>
      detectChanges (nth 0 (boundArgs ++ args) VUndefined) ;; ret VUndefined
  end.

Definition markDirty (component : Value) (scheduler : option Fn) : M unit :=
  when (ngDevMode E) (assertNotNull (is_nullish component) "component") ;;
  dirty <- gets isDirty ;;
  if negb dirty then
    modify (set_isDirty true) ;;
    _ <- call (default RequestAnimationFrame scheduler)
              [VFn (Bound DetectChanges VNull [component])] ;;
    ret tt
  else ret tt.

Definition getHostElement (component : Value) : M RElement :=
  hostNode <- read_NG_HOST_SYMBOL component ;;
  field hostNode "native" native.

(** [opts.host || componentDef.tag]: the empty string is falsy. *)
Definition host_or_tag (opts : CreateComponentOptionArgs) (componentDef : ComponentDef) : HostRef :=
  match opt_host opts with
  | Some (HostElement r) => HostElement r
  | Some (HostSelector s) => if bool_decide (s = ""%string) then HostSelector (tag componentDef)
                             else HostSelector s
  | None => HostSelector (tag componentDef)
  end.

Definition renderComponent (componentType : ComponentType) (opts : CreateComponentOptionArgs)
  : M Value :=
  let rendererFactory := default domRendererFactory3 (opt_rendererFactory opts) in
  let componentDef := ngComponentDef componentType in
  hostNode <- ext (locateHostElement E rendererFactory (host_or_tag opts componentDef)) ;;
  renderer <- ext (createRenderer E rendererFactory hostNode (rendererType componentDef)) ;;
  newView <- createViewState (-1) renderer [] ;;
  oldView <- enterView newView None ;;
  component <- try_finally
                 (hostElement hostNode componentDef ;;
                  inst <- call (n componentDef) [] ;;
                  directive 1 inst componentDef)
                 (leaveView oldView) ;;
  match opt_features opts with
  | Some features =>
      forEach features
        (fun feature => _ <- call feature [component; VObj (def_id componentDef)] ;; ret tt)
  | None => ret tt
  end ;;
  detectChanges component ;;
  ret component.

(** The four control points of a view reference. *)
Definition markForCheck : M unit := when (ngDevMode E) (throw (notImplemented E)).
Definition detach : M unit := when (ngDevMode E) (throw (notImplemented E)).
Definition checkNoChanges : M unit := when (ngDevMode E) (throw (notImplemented E)).
Definition reattach : M unit := when (ngDevMode E) (throw (notImplemented E)).

(** [addDestroyable(obj, context)]: [obj] is the literal of [createViewRef],
    of which [detectChangesFn] is the only field that varies.  The object gets
    [destroyed = false] and a fresh, empty [destroyFn]; [context] is not
    stored. *)
Definition addDestroyable (detectChangesFn : Fn) (context : Value) : M loc :=
  l <- alloc ;;
  modify (fun st => set_viewRefs
            (<[l := {| vr_detectChanges := detectChangesFn; destroyed := false;
                       destroyFn := None |}]> (viewRefs st)) st) ;;
  ret l.

Definition createViewRef (detectChangesFn : Fn) (context : Value) : M loc :=
  addDestroyable detectChangesFn context.

Definition get_viewRef (h : loc) : M ViewRefObj :=
  o <- gets (fun st => viewRefs st !! h) ;;
  match o with
  | Some obj => ret obj
  | None => throw (TypeError "not a view reference")
  end.

(** [h.destroy()] *)
Definition destroy (h : loc) : M unit :=
  obj <- get_viewRef h ;;
  match destroyFn obj with
  | Some fns => forEach fns (fun fn => _ <- call fn [] ;; ret tt)
  | None => ret tt
  end ;;
  modify (fun st => set_viewRefs
            (alter (fun o => {| vr_detectChanges := vr_detectChanges o; destroyed := true;
                                destroyFn := destroyFn o |}) h (viewRefs st)) st).

(** [h.onDestroy(fn)]; the value is that of [push], the new length. *)
Definition onDestroy (h : loc) (fn : Fn) : M nat :=
  obj <- get_viewRef h ;;
  let fns := default [] (destroyFn obj) ++ [fn] in
  modify (fun st => set_viewRefs
            (<[h := {| vr_detectChanges := vr_detectChanges obj; destroyed := destroyed obj;
                       destroyFn := Some fns |}]> (viewRefs st)) st) ;;
  ret (length fns).

(** [hostView.detectChanges()] *)
Definition viewRef_detectChanges (h : loc) : M unit :=
  obj <- get_viewRef h ;;
  _ <- call (vr_detectChanges obj) [] ;;
  ret tt.

(** [NULL_INJECTOR.get(token, notFoundValue)] *)
Definition NULL_INJECTOR_get (token : Value) (notFoundValue : Value) : M Value :=
  throw (NullInjectorError token).

Definition createComponentRef (componentType : ComponentType) (opts : CreateComponentOptionArgs)
  : M ComponentRef :=
  component <- renderComponent componentType opts ;;
  hostView <- createViewRef (Bound DetectChanges component []) component ;;
  nativeElement <- getHostElement component ;;
  ret {| location_nativeElement := nativeElement;
         injector := default NULL_INJECTOR (opt_injector opts);
         instance := component;
         hostView := hostView;
         changeDetectorRef := hostView;
         componentType := componentType |}.

(** [ref.destroy()] and [ref.onDestroy(cb)] of the component reference itself:
    [function() {}]. *)
Definition componentRef_destroy (ref : ComponentRef) : M unit := ret tt.
Definition componentRef_onDestroy (ref : ComponentRef) (cb : Fn) : M unit := ret tt.

End Runtime.

Arguments State W : clear implicits.
Arguments Env W : clear implicits.
Arguments M W A : clear implicits.
Arguments Ext W A : clear implicits.

(** A sequence of [markDirty] calls, each with its own scheduler argument. *)
Definition markDirty_all {W} (E : Env W) (calls : list (Value * option Fn)) : M W unit :=
  forEach calls (fun cs => markDirty E (fst cs) (snd cs)).

(** A sequence of [h.onDestroy(fn)] registrations. *)
Definition onDestroy_all {W} (h : loc) (fns : list Fn) : M W unit :=
  forEach fns (fun fn => bind (onDestroy h fn) (fun _ => ret tt)).

(** A destroy callback that returns normally and leaves the view reference
    [h] alone. *)
Definition quiet_callback {W} (E : Env W) (h : loc) (id : positive) : Prop :=
  forall st, exists v st1,
    applyFn E id [] st = (Ok v, st1) /\ viewRefs st1 !! h = viewRefs st !! h.

(** [obj] once [destroy] has run. *)
Definition mark_destroyed (obj : ViewRefObj) : ViewRefObj :=
  {| vr_detectChanges := vr_detectChanges obj; destroyed := true; destroyFn := destroyFn obj |}.

(** The callbacks registered on [obj], in registration order. *)
Definition registered (obj : ViewRefObj) : list Fn := default [] (destroyFn obj).

(** [k] calls of [h.destroy()] in a row. *)
Fixpoint destroy_times {W} (E : Env W) (h : loc) (k : nat) : M W unit :=
  match k with
  | O => ret tt
  | S k' => bind (destroy E h) (fun _ => destroy_times E h k')
  end.

(** The trace of calling the callbacks [ids], in order, without arguments. *)
Definition calls_of (ids : list positive) : list Event :=
  map (fun id => EvCall id []) ids.

(** [proj] does not look at what [f] updates. *)
Definition blind {W B} (proj : State W -> B) (f : State W -> State W) : Prop :=
  forall st, proj (f st) = proj st.

(** What [component[NG_HOST_SYMBOL]] resolves to, if anything. *)
Definition back_reference {W} (component : Value) (st : State W) : option LElement :=
  match component with
  | VObj l => hostSymbol st !! l
  | _ => None
  end.

(** A computation leaves a component [proj] of the state as it found it. *)
Definition keeps {W A B} (proj : State W -> B) (m : M W A) : Prop :=
  forall st, proj (snd (m st)) = proj st.

(** The calls of application functions that [f(...args)] itself makes. *)
Definition fn_calls (f : Fn) (args : list Value) : list Event :=
  match f with
  | AppFn id => [EvCall id args]
  | _ => []
  end.

(** The calls made by [features.forEach((feature) => feature(component,
    componentDef))]. *)
Definition feature_calls (component : Value) (componentDef : ComponentDef)
    (features : list Fn) : list Event :=
  concat (map (fun feature => fn_calls feature [component; VObj (def_id componentDef)])
              features).

(** A destroy callback that raises [e] and leaves the view reference [h]
    alone. *)
Definition failing_callback {W} (E : Env W) (h : loc) (id : positive) (e : Error) : Prop :=
  forall st, exists st1,
    applyFn E id [] st = (Throw e, st1) /\ viewRefs st1 !! h = viewRefs st !! h.

(** The options with the defaults of [renderComponent] written out: the
    renderer factory that is used, and neither an empty selector nor an empty
    list of features. *)
Definition explicit_opts (opts : CreateComponentOptionArgs) : CreateComponentOptionArgs :=
  {| opt_rendererFactory := Some (default domRendererFactory3 (opt_rendererFactory opts));
     opt_host := match opt_host opts with
                 | Some (HostSelector s) =>
                     if bool_decide (s = ""%string) then None else Some (HostSelector s)
                 | h => h
                 end;
     opt_injector := opt_injector opts;
     opt_features := match opt_features opts with
                     | Some [] => None
                     | fs => fs
                     end |}.

Definition set_world {W} (w : W) (st : State W) : State W :=
  mkState (currentView st) (isDirty st) (viewStates st) (hostSymbol st) (viewRefs st)
          (frameQueue st) (nextLoc st) (trace st) w.

(** A computation keeps a property of the state once it holds. *)
Definition preserves {W A} (P : State W -> Prop) (m : M W A) : Prop :=
  forall st, P st -> P (snd (m st)).

(** A collaborator does not detach or redirect a back-reference that exists;
    it may attach new ones. *)
Definition keeps_back_references {W A} (f : Ext W A) : Prop :=
  forall l node, preserves (fun st => hostSymbol st !! l = Some node) f.

(** A collaborator leaves the current view current and its element entry at
    index 0 in place; it may do anything else to the view states. *)
Definition keeps_host_entry {W A} (f : Ext W A) : Prop :=
  forall v node,
    preserves (fun st => currentView st = Some v
                         /\ exists s, viewStates st !! v = Some s
                                      /\ vs_data s !! 0%nat = Some (SNode node)) f.

(** What the call [fn()] of the destroy callback [id] does to the state: the
    call is recorded, then the body of the function runs. *)
Definition callback_effect {W} (E : Env W) (id : positive) (st : State W) : State W :=
  let st0 := set_trace (trace st ++ [EvCall id []]) st in
  set_trace (trace st0) (snd (applyFn E id [] st0)).

(** The callbacks [ids] called one after the other, first to last. *)
Definition callbacks_effect {W} (E : Env W) (ids : list positive) (st : State W) : State W :=
  fold_left (fun s id => callback_effect E id s) ids st.

(** One [destroy()] of [h] with the callbacks [ids] registered: the callbacks
    run, on the state as it is before the flag changes, and only then is [h]
    marked. *)
Definition destroy_effect {W} (E : Env W) (h : loc) (ids : list positive) (st : State W)
  : State W :=
  let s := callbacks_effect E ids st in
  set_viewRefs (alter mark_destroyed h (viewRefs s)) s.

(** The operations of a view reference other than [destroy()]. *)
Inductive ViewRefOp :=
| OnDestroyOp (fn : Fn)
| DetectChangesOp
| MarkForCheckOp
| DetachOp
| CheckNoChangesOp
| ReattachOp.

Definition viewRef_op {W} (E : Env W) (h : loc) (op : ViewRefOp) : M W unit :=
  match op with
  | OnDestroyOp fn => bind (onDestroy h fn) (fun _ => ret tt)
  | DetectChangesOp => viewRef_detectChanges E h
  | MarkForCheckOp => markForCheck E
  | DetachOp => detach E
  | CheckNoChangesOp => checkNoChanges E
  | ReattachOp => reattach E
  end.

(** A caller going through operations of [h] one after the other, catching
    whatever they raise. *)
Definition viewRef_ops {W} (E : Env W) (h : loc) (ops : list ViewRefOp) (st : State W)
  : State W :=
  fold_left (fun s op => snd (viewRef_op E h op s)) ops st.

(** The callbacks the operations register, in order. *)
Definition registrations (ops : list ViewRefOp) : list Fn :=
  concat (map (fun op => match op with OnDestroyOp fn => [fn] | _ => [] end) ops).

(** The calls of application functions the operations make when the
    [detectChanges] of the view reference is [dc]. *)
Definition op_calls (dc : Fn) (ops : list ViewRefOp) : list Event :=
  concat (map (fun op => match op with DetectChangesOp => fn_calls dc [] | _ => [] end) ops).

(** ** A concrete environment

    A diagnostics build whose host locator knows the element tagged
    [x-widget], whose instruction interpreter succeeds, and whose application
    functions are: 1, a factory allocating a fresh object; 2, a factory that
    raises; every other one returns [undefined] and touches nothing. *)
Module Demo.

Definition widget : RElement := RNode 1.

Definition locate (rf : RendererFactory3) (h : HostRef) : Ext unit RElement :=
  fun st => match h with
            | HostElement r => (Ok r, st)
            | HostSelector s =>
                if bool_decide (s = "x-widget"%string) then (Ok widget, st)
                else (Throw (RendererError "Host node with selector not found:" (VStr s)), st)
            end.

Definition apply_fn (id : positive) (args : list Value) : Ext unit Value :=
  fun st => match id with
            | 1%positive => (Ok (VObj (nextLoc st)), set_nextLoc (Pos.succ (nextLoc st)) st)
            | 2%positive => (Throw (AppError (VStr "factory failed")), st)
            | _ => (Ok VUndefined, st)
            end.

Definition env (devMode : bool) : Env unit :=
  {| ngDevMode := devMode;
     locateHostElement := locate;
     createRenderer := fun _ _ _ st => (Ok (RendererObj 1), st);
     renderComponentOrTemplate := fun _ _ _ st => (Ok tt, st);
     createError := fun text token st => (Ok (VStr text), st);
     notImplemented := NotImplementedError;
     applyFn := apply_fn |}.

Definition st0 : State unit :=
  mkState None false ∅ ∅ ∅ [] 1%positive [] tt.

Definition XWidget : ComponentType :=
  {| ngComponentDef := {| def_id := 100; tag := "x-widget"; n := AppFn 1; rendererType := VNull |} |}.

Definition Failing : ComponentType :=
  {| ngComponentDef := {| def_id := 101; tag := "x-widget"; n := AppFn 2; rendererType := VNull |} |}.

(** The same environment with an instruction interpreter that raises. *)
Definition env_failing_pass (devMode : bool) : Env unit :=
  {| ngDevMode := devMode;
     locateHostElement := locate;
     createRenderer := fun _ _ _ st => (Ok (RendererObj 1), st);
     renderComponentOrTemplate := fun _ _ _ st => (Throw (AppError (VStr "template failed")), st);
     createError := fun text token st => (Ok (VStr text), st);
     notImplemented := NotImplementedError;
     applyFn := apply_fn |}.

(** The state after [createComponentRef(XWidget)]; the host view is object 4. *)
Definition with_ref : State unit := snd (createComponentRef (env true) XWidget no_opts st0).
Definition the_hostView : loc := 4%positive.

(** The host view after one [destroy()]. *)
Definition destroyed_ref : State unit := snd (destroy (env true) the_hostView with_ref).

(** A state in which some view (object 9) is current. *)
Definition nested : State unit := set_currentView (Some 9%positive) st0.

(** The state after [renderComponent(XWidget)], and the instance it made. *)
Definition booted : State unit := snd (renderComponent (env true) XWidget no_opts st0).
Definition widget_instance : Value := VObj 3.

(** Two [markDirty] calls in the same window, with a scheduler of the
    application and with the default one. *)
Definition two_calls : list (Value * option Fn) :=
  [(widget_instance, Some (AppFn 3)); (widget_instance, None)].
Definition dirtied : State unit := snd (markDirty_all (env true) two_calls booted).

(** The host view with three callbacks registered, the second of which
    raises. *)
Definition with_callbacks : State unit :=
  snd (onDestroy_all the_hostView [AppFn 5; AppFn 2; AppFn 6] with_ref).

(** A second view reference (object 5) beside the host view. *)
Definition two_refs : State unit :=
  snd (createViewRef (Bound DetectChanges widget_instance []) widget_instance with_callbacks).

(** Options naming the element by a selector nothing matches. *)
Definition missing_host : CreateComponentOptionArgs :=
  {| opt_rendererFactory := None; opt_host := Some (HostSelector "nope");
     opt_injector := None; opt_features := None |}.

(** Options with two features. *)
Definition with_features : CreateComponentOptionArgs :=
  {| opt_rendererFactory := None; opt_host := Some (HostElement widget);
     opt_injector := None; opt_features := Some [AppFn 7; AppFn 8] |}.

(** Options with an empty selector and an empty list of features. *)
Definition empty_opts : CreateComponentOptionArgs :=
  {| opt_rendererFactory := None; opt_host := Some (HostSelector "");
     opt_injector := None; opt_features := Some [] |}.

(** The environment whose instruction interpreter, on its first pass,
    attaches a back-reference to a child directive (object 50). *)
Definition env_with_child : Env unit :=
  {| ngDevMode := true;
     locateHostElement := locate;
     createRenderer := fun _ _ _ st => (Ok (RendererObj 1), st);
     renderComponentOrTemplate := fun node v _ st =>
       match hostSymbol st !! 50%positive with
       | Some _ => (Ok tt, st)
       | None => (Ok tt, set_hostSymbol
                           (<[50%positive := {| native := RNode 2; data := None; view := v |}]>
                              (hostSymbol st)) st)
       end;
     createError := fun text token st => (Ok (VStr text), st);
     notImplemented := NotImplementedError;
     applyFn := apply_fn |}.

(** Operations on the destroyed host view, none of them [destroy()]. *)
Definition some_ops : list ViewRefOp :=
  [OnDestroyOp (AppFn 5); DetectChangesOp; MarkForCheckOp; OnDestroyOp (AppFn 6);
   DetachOp; CheckNoChangesOp; ReattachOp; DetectChangesOp].

End Demo.

(** ** An environment that observes the destroy flag

    Every application function appends to the world whether view reference 1
    is destroyed at the moment it runs. *)
Module Observer.

Definition seen (st : State (list bool)) : bool :=
  default false (destroyed <$> viewRefs st !! 1%positive).

Definition apply_fn (id : positive) (args : list Value) : Ext (list bool) Value :=
  fun st => (Ok VUndefined, set_world (world st ++ [seen st]) st).

Definition env : Env (list bool) :=
  {| ngDevMode := true;
     locateHostElement := fun _ _ st => (Ok (RNode 1), st);
     createRenderer := fun _ _ _ st => (Ok (RendererObj 1), st);
     renderComponentOrTemplate := fun _ _ _ st => (Ok tt, st);
     createError := fun text token st => (Ok (VStr text), st);
     notImplemented := NotImplementedError;
     applyFn := apply_fn |}.

Definition st0 : State (list bool) :=
  mkState None false ∅ ∅ ∅ [] 1%positive [] [].

(** Two view references, objects 1 and 2. *)
Definition with_views : State (list bool) :=
  snd (createViewRef (Bound DetectChanges VNull []) VNull
         (snd (createViewRef (Bound DetectChanges VNull []) VNull st0))).

(** The same with a callback registered on object 2. *)
Definition with_callback_on_2 : State (list bool) :=
  snd (onDestroy_all 2%positive [AppFn 8] with_views).

End Observer.

(** ** Reasoning about the monad *)

Section MonadFacts.
Context {W : Type}.
Implicit Types st : State W.

Lemma bind_ok {A B} (m : M W A) (k : A -> M W B) st a st1 :
  m st = (Ok a, st1) -> bind m k st = k a st1.
Proof. intros H. unfold bind. by rewrite H. Qed.

Lemma bind_ok_inv {A B} (m : M W A) (k : A -> M W B) st b st' :
  bind m k st = (Ok b, st') ->
  exists a st1, m st = (Ok a, st1) /\ k a st1 = (Ok b, st').
Proof.
  unfold bind. destruct (m st) as [[a|e] st1]; [eauto | discriminate].
Qed.

End MonadFacts.

Ltac inv_bind H :=
  repeat match type of H with
         | bind _ _ _ = (Ok _, _) =>
             let a := fresh "a" in
             let st1 := fresh "st" in
             let H1 := fresh "Hm" in
             apply bind_ok_inv in H as (a & st1 & H1 & H)
         end.

(** ** The change detector and the dirty scheduler *)

Section Detector.
Context {W : Type} (E : Env W).
Implicit Types (st : State W) (component : Value).

(** [detectChanges] ends with [isDirty = false]. *)
Lemma detectChanges_ok_inv component st u st' :
  detectChanges E component st = (Ok u, st') ->
  exists st1, st' = set_isDirty false st1.
Proof.
  unfold detectChanges. intros H. inv_bind H.
  unfold modify in H. injection H as _ <-. eauto.
Qed.

(** A closure made by [detectChanges.bind(thisArg, ...boundArgs)] passes the
    bound arguments, then those of the call, and never [thisArg]. *)
Lemma call_bound thisArg boundArgs args st :
  call E (Bound DetectChanges thisArg boundArgs) args st
  = bind (detectChanges E (nth 0 (boundArgs ++ args) VUndefined)) (fun _ => ret VUndefined) st.
Proof. reflexivity. Qed.

(** [detectChanges(undefined)] raises in every build and changes nothing. *)
Lemma detectChanges_undefined st :
  exists e, detectChanges E VUndefined st = (Throw e, st).
Proof.
  unfold detectChanges, bind, when. destruct (ngDevMode E); simpl; eauto.
Qed.

(** While the flag is set, [markDirty] returns at once. *)
Lemma markDirty_noop component scheduler st :
  isDirty st = true ->
  (ngDevMode E = true -> is_nullish component = false) ->
  markDirty E component scheduler st = (Ok tt, st).
Proof.
  intros Hd Hn. unfold markDirty, bind, when, gets.
  destruct (ngDevMode E); simpl.
  - rewrite Hn by done. simpl. by rewrite Hd.
  - by rewrite Hd.
Qed.

Lemma markDirty_all_noop calls st :
  isDirty st = true ->
  (ngDevMode E = true -> Forall (fun cs => is_nullish (fst cs) = false) calls) ->
  markDirty_all E calls st = (Ok tt, st).
Proof.
  intros Hd. induction calls as [|[c s] calls IH]; intros Hn; [done|].
  unfold markDirty_all. simpl.
  erewrite bind_ok; last first.
  { apply markDirty_noop; [done|]. intros Hdev. by apply Forall_inv in Hn. }
  apply IH. intros Hdev. by eapply Forall_inv_tail, Hn.
Qed.

(** The first [markDirty] of a window sets the flag and hands the bound
    closure to the scheduler. *)
Lemma markDirty_first component scheduler st :
  isDirty st = false ->
  (ngDevMode E = true -> is_nullish component = false) ->
  markDirty E component scheduler st
  = bind (call E (default RequestAnimationFrame scheduler)
               [VFn (Bound DetectChanges VNull [component])])
         (fun _ => ret tt) (set_isDirty true st).
Proof.
  intros Hd Hn. unfold markDirty, when, gets.
  destruct (ngDevMode E); simpl.
  - rewrite Hn by done. unfold bind at 1. simpl. unfold bind at 1. by rewrite Hd.
  - unfold bind at 1. simpl. unfold bind at 1. by rewrite Hd.
Qed.

Lemma call_AppFn_trace id args st v st1 :
  call E (AppFn id) args st = (Ok v, st1) ->
  trace st1 = trace st ++ [EvCall id args].
Proof.
  simpl. unfold bind, emit, modify, ext. simpl.
  destruct (applyFn E id args _) as [r s1]. intros [= -> <-]. done.
Qed.

End Detector.

(** ** Claims about the change detector and the dirty scheduler *)

(** C4. After any [detectChanges(instance)] that completes without raising,
    the global dirty flag is false: whatever [markDirty] calls came before, and
    whether the pass is a direct call or the closure a scheduler was given. *)
Theorem detectChanges_clears_dirty_flag {W} (E : Env W)
    (calls : list (Value * option Fn)) (component thisArg : Value)
    (st0 st st' : State W) (r : Result unit) :
  markDirty_all E calls st0 = (r, st) ->
  (detectChanges E component st = (Ok tt, st')
   \/ exists v, call E (Bound DetectChanges thisArg [component]) [] st = (Ok v, st')) ->
  isDirty st' = false.
Proof.
  intros _ [H | [v H]].
  - apply detectChanges_ok_inv in H as [st1 ->]. done.
  - rewrite call_bound in H. simpl in H. inv_bind H.
    destruct a. apply detectChanges_ok_inv in Hm as [st2 ->].
    unfold ret in H. by injection H as _ <-.
Qed.

Lemma detectChanges_clears_dirty_flag_witness :
  isDirty Demo.dirtied = true
  /\ isDirty (snd (detectChanges (Demo.env true) Demo.widget_instance Demo.dirtied)) = false.
Proof.
  split; [vm_compute; reflexivity |].
  apply (detectChanges_clears_dirty_flag (Demo.env true) Demo.two_calls
           Demo.widget_instance VNull Demo.booted Demo.dirtied
           (snd (detectChanges (Demo.env true) Demo.widget_instance Demo.dirtied)) (Ok tt)).
  - vm_compute; reflexivity.
  - left. vm_compute; reflexivity.
Defined.

(** C6. When the render pass raises inside [detectChanges], the error
    propagates and the dirty flag is not cleared: it is what the failed pass
    left.  If it is then set, every later [markDirty] returns at once, so
    nothing is scheduled any more. *)
Theorem failed_pass_leaves_dirty_flag {W} (E : Env W) (l : loc) (node : LElement)
    (st st1 : State W) (e : Error) (calls : list (Value * option Fn)) :
  hostSymbol st !! l = Some node ->
  (ngDevMode E = true -> data node <> None) ->
  renderComponentOrTemplate E node (view node) (VObj l) st = (Throw e, st1) ->
  let st' := set_trace (trace st) st1 in
  detectChanges E (VObj l) st = (Throw e, st')
  /\ isDirty st' = isDirty st1
  /\ (isDirty st1 = true ->
      (ngDevMode E = true -> Forall (fun cs => is_nullish (fst cs) = false) calls) ->
      markDirty_all E calls st' = (Ok tt, st')
      /\ isDirty st' = true /\ trace st' = trace st /\ frameQueue st' = frameQueue st1).
Proof.
  intros Hl Hdata Hpass st'. split; [| split; [done |]].
  - unfold detectChanges, bind, when, gets, field, ext, assertNotNull, ret. simpl.
    destruct (ngDevMode E); simpl; rewrite Hl; simpl.
    + destruct (data node) eqn:Hd; [| by destruct Hdata].
      simpl. by rewrite Hpass.
    + by rewrite Hpass.
  - intros Hd Hn. split; [| done]. by apply markDirty_all_noop.
Qed.

Lemma failed_pass_leaves_dirty_flag_witness :
  let st := set_isDirty true Demo.booted in
  detectChanges (Demo.env_failing_pass true) Demo.widget_instance st
    = (Throw (AppError (VStr "template failed")), st)
  /\ markDirty_all (Demo.env_failing_pass true) Demo.two_calls st = (Ok tt, st).
Proof.
  pose proof (failed_pass_leaves_dirty_flag (Demo.env_failing_pass true) 3
                {| native := Demo.widget; data := Some 2%positive; view := 1%positive |}
                (set_isDirty true Demo.booted) (set_isDirty true Demo.booted)
                (AppError (VStr "template failed")) Demo.two_calls) as H.
  simpl in H.
  destruct H as (H1 & _ & H3).
  - vm_compute; reflexivity.
  - discriminate.
  - reflexivity.
  - split; [exact H1 |]. apply H3; [reflexivity |].
    intros _. repeat constructor.
Defined.

(** C3. [markDirty] called N > 0 times in one dirty window (the flag is clear
    before the first call and still set after the scheduler returns) amounts
    to a single call of the first scheduler, with the closure
    [detectChanges.bind(null, component)] of the first instance; the other
    calls change nothing.  The closure takes no argument and runs
    [detectChanges(component)]. *)
Theorem markDirty_schedules_once {W} (E : Env W) (component : Value) (scheduler : option Fn)
    (rest : list (Value * option Fn)) (st st1 : State W) (v : Value) :
  let closure := Bound DetectChanges VNull [component] in
  isDirty st = false ->
  (ngDevMode E = true ->
   Forall (fun cs => is_nullish (fst cs) = false) ((component, scheduler) :: rest)) ->
  call E (default RequestAnimationFrame scheduler) [VFn closure] (set_isDirty true st)
    = (Ok v, st1) ->
  isDirty st1 = true ->
  markDirty_all E ((component, scheduler) :: rest) st = (Ok tt, st1)
  /\ (forall id, scheduler = Some (AppFn id) ->
      trace st1 = trace st ++ [EvCall id [VFn closure]])
  /\ (scheduler = None ->
      trace st1 = trace st /\ frameQueue st1 = frameQueue st ++ [closure])
  /\ (forall st2, call E closure [] st2
                  = bind (detectChanges E component) (fun _ => ret VUndefined) st2).
Proof.
  intros closure Hclear Hn Hcall Hset. repeat split.
  - unfold markDirty_all. simpl.
    erewrite bind_ok; last first.
    { rewrite markDirty_first; [| done |].
      - erewrite bind_ok by exact Hcall. reflexivity.
      - intros Hdev. by apply Forall_inv in Hn. }
    apply markDirty_all_noop; [done |].
    intros Hdev. by eapply Forall_inv_tail, Hn.
  - intros id ->. simpl in Hcall. by apply call_AppFn_trace in Hcall.
  - subst scheduler. simpl in Hcall. unfold bind, modify, ret in Hcall.
    by injection Hcall as _ <-.
  - subst scheduler. simpl in Hcall. unfold bind, modify, ret in Hcall.
    by injection Hcall as _ <-.
Qed.

Lemma markDirty_schedules_once_witness :
  markDirty_all (Demo.env true) Demo.two_calls Demo.booted
    = markDirty (Demo.env true) Demo.widget_instance (Some (AppFn 3)) Demo.booted
  /\ trace Demo.dirtied
     = trace Demo.booted ++ [EvCall 3 [VFn (Bound DetectChanges VNull [Demo.widget_instance])]]
  /\ frameQueue Demo.dirtied = [].
Proof.
  pose proof (markDirty_schedules_once (Demo.env true) Demo.widget_instance (Some (AppFn 3))
                [(Demo.widget_instance, None)] Demo.booted
                (set_isDirty true (set_trace
                   (trace Demo.booted
                    ++ [EvCall 3 [VFn (Bound DetectChanges VNull [Demo.widget_instance])]])
                   Demo.booted))
                VUndefined) as H.
  simpl in H.
  destruct H as (H1 & H2 & _).
  - reflexivity.
  - intros _. repeat constructor.
  - vm_compute; reflexivity.
  - reflexivity.
  - split; [| split].
    + etrans; [exact H1 |]. vm_compute; reflexivity.
    + vm_compute; reflexivity.
    + vm_compute; reflexivity.
Defined.

(** C10. In a diagnostics build each of [markForCheck], [detach],
    [checkNoChanges] and [reattach] raises the error of [notImplemented()],
    whatever the state, and changes nothing. *)
Theorem control_points_not_implemented {W} (E : Env W) (st : State W) :
  ngDevMode E = true ->
  markForCheck E st = (Throw (notImplemented E), st)
  /\ detach E st = (Throw (notImplemented E), st)
  /\ checkNoChanges E st = (Throw (notImplemented E), st)
  /\ reattach E st = (Throw (notImplemented E), st).
Proof.
  intros Hdev. unfold markForCheck, detach, checkNoChanges, reattach, when.
  rewrite Hdev. done.
Qed.

Lemma control_points_not_implemented_witness :
  markForCheck (Demo.env true) Demo.booted = (Throw NotImplementedError, Demo.booted)
  /\ detach (Demo.env true) Demo.booted = (Throw NotImplementedError, Demo.booted)
  /\ checkNoChanges (Demo.env true) Demo.booted = (Throw NotImplementedError, Demo.booted)
  /\ reattach (Demo.env true) Demo.booted = (Throw NotImplementedError, Demo.booted).
Proof.
  apply (control_points_not_implemented (Demo.env true) Demo.booted). reflexivity.
Defined.

(** ** The host element accessor *)

(** [getHostElement] and [read_NG_HOST_SYMBOL] only read the state. *)
Lemma getHostElement_state {W} (component : Value) (st st' : State W) (r : Result RElement) :
  getHostElement component st = (r, st') -> st' = st.
Proof.
  unfold getHostElement, bind, read_NG_HOST_SYMBOL, gets, field, throw, ret.
  destruct component; simpl; try (intros [= _ <-]; done).
  destruct (hostSymbol st !! l); intros [= _ <-]; done.
Qed.

(** C7, as the code has it.  [getHostElement] has no diagnostics of its own:
    for a value whose back-reference does not resolve it fails, in every
    build, with the language's TypeError of reading a property off a missing
    value, and changes nothing. *)
Theorem getHostElement_unresolved_TypeError {W} (component : Value) (st : State W) :
  back_reference component st = None ->
  exists detail,
    getHostElement component st = (Throw (TypeError detail), st)
    /\ is_diagnostic (TypeError detail) = false.
Proof.
  intros Hb. unfold getHostElement, bind, read_NG_HOST_SYMBOL, gets, field, throw, ret.
  destruct component; simpl in *; try rewrite Hb; eauto.
Qed.

Lemma getHostElement_unresolved_TypeError_witness :
  exists detail,
    getHostElement (VObj 7) Demo.booted = (Throw (TypeError detail), Demo.booted).
Proof.
  destruct (getHostElement_unresolved_TypeError (VObj 7) Demo.booted) as (d & H & _).
  - vm_compute; reflexivity.
  - exists d. exact H.
Defined.

(** C7 as stated fails: on an object that was never bootstrapped
    [getHostElement] raises a TypeError, not a diagnostic failure; and on
    [null] a diagnostics build of [detectChanges] fails with the assertion
    while [getHostElement] fails with the TypeError. *)
Lemma getHostElement_diagnostic_counterexample :
  back_reference (VObj 7) Demo.st0 = None
  /\ ~ (exists e st', getHostElement (VObj 7) Demo.st0 = (Throw e, st')
                     /\ is_diagnostic e = true)
  /\ detectChanges (Demo.env true) VNull Demo.st0 = (Throw (AssertionError "component"), Demo.st0)
  /\ getHostElement VNull Demo.st0
     = (Throw (TypeError "cannot read property of null or undefined"), Demo.st0).
Proof.
  split; [reflexivity |]. split; [| split; reflexivity].
  intros (e & st' & H & Hdiag).
  vm_compute in H. injection H as <- _. discriminate Hdiag.
Qed.

(** ** The view reference of [createComponentRef] *)

(** The closure stored in [hostView.detectChanges] is
    [detectChanges.bind(component)]: it binds [this], not the argument. *)
Lemma createComponentRef_hostView {W} (E : Env W) (ct : ComponentType)
    (opts : CreateComponentOptionArgs) (st st' : State W) (ref : ComponentRef) :
  createComponentRef E ct opts st = (Ok ref, st') ->
  exists obj, viewRefs st' !! hostView ref = Some obj
              /\ vr_detectChanges obj = Bound DetectChanges (instance ref) []
              /\ destroyed obj = false /\ destroyFn obj = None
              /\ changeDetectorRef ref = hostView ref.
Proof.
  unfold createComponentRef. intros H. inv_bind H.
  unfold ret in H. injection H as <- <-. simpl.
  apply getHostElement_state in Hm1 as ->.
  unfold createViewRef, addDestroyable, alloc in Hm0. inv_bind Hm0.
  unfold ret, modify in *. injection Hm0 as <- <-. injection Hm2 as _ <-.
  injection Hm1 as <- <-. simpl. rewrite lookup_insert_eq. eauto 10.
Qed.

(** So [hostView.detectChanges()] is [detectChanges(undefined)]: it raises and
    changes nothing, whatever the instance. *)
Lemma hostView_detectChanges_raises {W} (E : Env W) (ct : ComponentType)
    (opts : CreateComponentOptionArgs) (st st' : State W) (ref : ComponentRef) :
  createComponentRef E ct opts st = (Ok ref, st') ->
  exists e, viewRef_detectChanges E (hostView ref) st' = (Throw e, st').
Proof.
  intros H. apply createComponentRef_hostView in H as (obj & Hobj & Hdc & _).
  unfold viewRef_detectChanges, get_viewRef, gets.
  unfold bind at 1 2. rewrite Hobj. unfold ret at 1. rewrite Hdc.
  destruct (detectChanges_undefined E st') as [e He].
  exists e. unfold bind at 1. rewrite call_bound. simpl.
  unfold bind at 1. by rewrite He.
Qed.

(** C1 fails on the code.  After [createComponentRef(XWidget)] a call of
    [hostView.detectChanges()] raises (the assertion in a diagnostics build,
    a TypeError otherwise) while [detectChanges(instance)] succeeds. *)
Theorem hostView_detectChanges_not_bound_to_instance :
  (exists ref st,
      createComponentRef (Demo.env true) Demo.XWidget no_opts Demo.st0 = (Ok ref, st)
      /\ instance ref = Demo.widget_instance
      /\ viewRef_detectChanges (Demo.env true) (hostView ref) st
         = (Throw (AssertionError "component"), st)
      /\ fst (detectChanges (Demo.env true) (instance ref) st) = Ok tt)
  /\ (exists ref st,
      createComponentRef (Demo.env false) Demo.XWidget no_opts Demo.st0 = (Ok ref, st)
      /\ instance ref = Demo.widget_instance
      /\ viewRef_detectChanges (Demo.env false) (hostView ref) st
         = (Throw (TypeError "cannot read property of null or undefined"), st)
      /\ fst (detectChanges (Demo.env false) (instance ref) st) = Ok tt).
Proof.
  split.
  - destruct (createComponentRef (Demo.env true) Demo.XWidget no_opts Demo.st0)
      as [[ref|e] st] eqn:H; [| vm_compute in H; discriminate].
    exists ref, st. vm_compute in H. injection H as <- <-.
    repeat split; vm_compute; reflexivity.
  - destruct (createComponentRef (Demo.env false) Demo.XWidget no_opts Demo.st0)
      as [[ref|e] st] eqn:H; [| vm_compute in H; discriminate].
    exists ref, st. vm_compute in H. injection H as <- <-.
    repeat split; vm_compute; reflexivity.
Qed.

(** ** The destroy lifecycle of a view reference *)

Section Destroy.
Context {W : Type} (E : Env W).
Implicit Types (st : State W) (h : loc) (obj : ViewRefObj).

Lemma forEach_quiet_callbacks h ids st :
  Forall (quiet_callback E h) ids ->
  exists st',
    forEach (map AppFn ids) (fun fn => bind (call E fn []) (fun _ => ret tt)) st = (Ok tt, st')
    /\ trace st' = trace st ++ calls_of ids
    /\ viewRefs st' !! h = viewRefs st !! h.
Proof.
  intros Hq. revert st. induction Hq as [|id ids Hid _ IH]; intros st.
  - exists st. simpl. by rewrite app_nil_r.
  - destruct (Hid (set_trace (trace st ++ [EvCall id []]) st)) as (v & st1 & Happ & Hkeep).
    destruct (IH (set_trace (trace st ++ [EvCall id []]) st1)) as (st' & Hrun & Htr & Hrefs).
    exists st'. split; [| split].
    + simpl. unfold bind at 1 2 3. unfold emit, modify, ext. rewrite Happ. simpl.
      exact Hrun.
    + rewrite Htr. simpl. by rewrite <- app_assoc.
    + rewrite Hrefs. simpl. exact Hkeep.
Qed.

(** One [destroy()]: the registered callbacks run once each, in order, and
    the flag is set. *)
Lemma destroy_once h ids st obj :
  viewRefs st !! h = Some obj ->
  registered obj = map AppFn ids ->
  Forall (quiet_callback E h) ids ->
  exists st',
    destroy E h st = (Ok tt, st')
    /\ trace st' = trace st ++ calls_of ids
    /\ viewRefs st' !! h = Some (mark_destroyed obj).
Proof.
  intros Hobj Hreg Hq. unfold destroy, get_viewRef, gets.
  unfold bind at 1 2 3. rewrite Hobj. unfold ret at 1.
  unfold registered in Hreg. destruct (destroyFn obj) as [fns|] eqn:Hfns; simpl in Hreg.
  - subst fns. destruct (forEach_quiet_callbacks h ids st Hq) as (st1 & Hrun & Htr & Hrefs).
    rewrite Hrun. eexists. split; [reflexivity |]. simpl. split; [done |].
    rewrite lookup_alter_eq, Hrefs, Hobj. done.
  - destruct ids; [| done]. eexists. split; [reflexivity |]. simpl.
    rewrite app_nil_r. split; [done |]. by rewrite lookup_alter_eq, Hobj.
Qed.

Lemma destroy_repeated h ids k st obj :
  viewRefs st !! h = Some obj ->
  registered obj = map AppFn ids ->
  Forall (quiet_callback E h) ids ->
  exists st',
    destroy_times E h k st = (Ok tt, st')
    /\ trace st' = trace st ++ concat (replicate k (calls_of ids))
    /\ viewRefs st' !! h = Some (if k is O then obj else mark_destroyed obj).
Proof.
  intros Hobj Hreg Hq. revert st obj Hobj Hreg.
  induction k as [|k IH]; intros st obj Hobj Hreg.
  - exists st. simpl. by rewrite app_nil_r.
  - destruct (destroy_once h ids st obj Hobj Hreg Hq) as (st1 & Hrun & Htr & Hrefs).
    destruct (IH st1 (mark_destroyed obj) Hrefs Hreg) as (st' & Hrun' & Htr' & Hrefs').
    exists st'. split; [| split].
    + simpl. by erewrite bind_ok.
    + rewrite Htr', Htr. simpl. by rewrite <- app_assoc.
    + rewrite Hrefs'. by destruct k.
Qed.

(** One registration: the list grows at its end, nothing runs. *)
Lemma onDestroy_spec h fn st obj :
  viewRefs st !! h = Some obj ->
  onDestroy h fn st
  = (Ok (length (registered obj ++ [fn])),
     set_viewRefs (<[h := {| vr_detectChanges := vr_detectChanges obj;
                             destroyed := destroyed obj;
                             destroyFn := Some (registered obj ++ [fn]) |}]> (viewRefs st)) st).
Proof.
  intros Hobj. unfold onDestroy, get_viewRef, gets.
  unfold bind at 1 2. by rewrite Hobj.
Qed.

Lemma onDestroy_all_spec h fns st obj :
  viewRefs st !! h = Some obj ->
  exists st' obj',
    onDestroy_all h fns st = (Ok tt, st')
    /\ st' = set_viewRefs (viewRefs st') st
    /\ (forall h', h' <> h -> viewRefs st' !! h' = viewRefs st !! h')
    /\ viewRefs st' !! h = Some obj'
    /\ vr_detectChanges obj' = vr_detectChanges obj
    /\ destroyed obj' = destroyed obj
    /\ registered obj' = registered obj ++ fns.
Proof.
  revert st obj. induction fns as [|fn fns IH]; intros st obj Hobj.
  - exists st, obj. simpl. rewrite app_nil_r. repeat split; try done.
    by destruct st.
  - pose proof (onDestroy_spec h fn st obj Hobj) as H1.
    set (obj1 := {| vr_detectChanges := vr_detectChanges obj; destroyed := destroyed obj;
                    destroyFn := Some (registered obj ++ [fn]) |}) in *.
    set (st1 := set_viewRefs (<[h := obj1]> (viewRefs st)) st) in *.
    assert (viewRefs st1 !! h = Some obj1) as Hobj1 by apply lookup_insert_eq.
    destruct (IH st1 obj1 Hobj1) as (st' & obj' & Hrun & Hst & Hoth & Hl & Hdc & Hd & Hr).
    exists st', obj'. split; [| split; [| split; [| split; [| split; [| split]]]]].
    + unfold onDestroy_all. simpl. unfold bind at 1 2. rewrite H1. unfold ret at 1.
      exact Hrun.
    + rewrite Hst. by destruct st.
    + intros h' Hne. rewrite Hoth by done. simpl. by rewrite lookup_insert_ne.
    + exact Hl.
    + by rewrite Hdc.
    + by rewrite Hd.
    + rewrite Hr. unfold registered at 1. simpl. by rewrite <- app_assoc.
Qed.

End Destroy.

(** ** Frame reasoning *)

Section Frames.
Context {W : Type} (E : Env W) {B : Type} (proj : State W -> B).
Implicit Types st : State W.

Lemma keeps_ret {A} (a : A) : keeps proj (ret a).
Proof. by intros st. Qed.

Lemma keeps_throw {A} (e : Error) : keeps proj (@throw W A e).
Proof. by intros st. Qed.

Lemma keeps_gets {A} (f : State W -> A) : keeps proj (gets f).
Proof. by intros st. Qed.

Lemma keeps_modify (f : State W -> State W) : blind proj f -> keeps proj (modify f).
Proof. intros Hf st. apply Hf. Qed.

Lemma keeps_bind {A C} (m : M W A) (k : A -> M W C) :
  keeps proj m -> (forall a, keeps proj (k a)) -> keeps proj (bind m k).
Proof.
  intros Hm Hk st. unfold bind. specialize (Hm st).
  destruct (m st) as [[a|e] st1]; simpl in Hm; [by rewrite Hk | done].
Qed.

Lemma keeps_when (b : bool) (m : M W unit) : keeps proj m -> keeps proj (when b m).
Proof. destruct b; [done | intros _; apply keeps_ret]. Qed.

Lemma keeps_forEach {A} (l : list A) (f : A -> M W unit) :
  (forall x, x ∈ l -> keeps proj (f x)) -> keeps proj (forEach l f).
Proof.
  induction l as [|x l IH]; intros Hf; [apply keeps_ret |].
  simpl. apply keeps_bind; [apply Hf; left | intros _; apply IH].
  intros y Hy. apply Hf. by right.
Qed.

Lemma keeps_ext {A} (f : Ext W A) :
  (forall t, blind proj (set_trace t)) -> keeps proj f -> keeps proj (ext f).
Proof.
  intros Ht Hf st. unfold ext. specialize (Hf st).
  destruct (f st) as [r st1]. simpl in *. by rewrite Ht.
Qed.

(** Running [m], which keeps [proj], then [k]. *)
Lemma bind_keeps_then {A C} (m : M W A) (k : A -> M W C) st (x : B) :
  keeps proj m ->
  (forall a st1, proj st1 = proj st -> proj (snd (k a st1)) = x) ->
  (proj st = x) ->
  proj (snd (bind m k st)) = x.
Proof.
  intros Hm Hk Hx. unfold bind. specialize (Hm st).
  destruct (m st) as [[a|e] st1]; simpl in *; [by apply Hk | congruence].
Qed.

Hypothesis blind_trace : forall t, blind proj (set_trace t).
Hypothesis blind_isDirty : forall b, blind proj (set_isDirty b).
Hypothesis blind_frameQueue : forall q, blind proj (set_frameQueue q).

Lemma keeps_assertNotNull (actualIsNull : bool) (name : string) :
  keeps proj (assertNotNull actualIsNull name).
Proof. unfold assertNotNull. destruct actualIsNull; [apply keeps_throw | apply keeps_ret]. Qed.

Lemma keeps_read_NG_HOST_SYMBOL (component : Value) :
  keeps proj (read_NG_HOST_SYMBOL component).
Proof.
  destruct component; simpl;
    first [apply keeps_throw | apply keeps_gets | apply keeps_ret].
Qed.

Lemma keeps_field {A} (hostNode : option LElement) (name : string) (f : LElement -> A) :
  keeps proj (field hostNode name f).
Proof. destruct hostNode; [apply keeps_ret | apply keeps_throw]. Qed.

Create HintDb frames.

Local Hint Resolve keeps_ret keeps_throw keeps_gets keeps_modify keeps_bind keeps_when
  keeps_ext keeps_assertNotNull keeps_read_NG_HOST_SYMBOL keeps_field : frames.

Lemma keeps_detectChanges (component : Value) :
  (forall node v c, keeps proj (renderComponentOrTemplate E node v c)) ->
  (forall text token, keeps proj (createError E text token)) ->
  keeps proj (detectChanges E component).
Proof.
  intros Hpass Herr. unfold detectChanges.
  apply keeps_bind; [auto with frames | intros _].
  apply keeps_bind; [auto with frames | intros hostNode].
  apply keeps_bind; [auto 6 with frames | intros _].
  apply keeps_bind; [auto 6 with frames | intros _].
  apply keeps_bind; [auto with frames | intros nv].
  apply keeps_bind; [auto with frames | intros _].
  apply keeps_modify. intros st. apply blind_isDirty.
Qed.

Lemma keeps_call (f : Fn) (args : list Value) :
  (forall node v c, keeps proj (renderComponentOrTemplate E node v c)) ->
  (forall text token, keeps proj (createError E text token)) ->
  (forall id, f = AppFn id -> keeps proj (applyFn E id args)) ->
  keeps proj (call E f args).
Proof.
  intros Hpass Herr Happ. destruct f as [id | | [] thisArg boundArgs]; simpl.
  - apply keeps_bind; [apply keeps_modify; intros st; apply blind_trace |].
    intros _. apply keeps_ext; [done |]. by apply Happ.
  - destruct args as [|[] args]; try apply keeps_throw.
    apply keeps_bind; [apply keeps_modify; intros st; apply blind_frameQueue |].
    intros _. apply keeps_ret.
  - apply keeps_bind; [by apply keeps_detectChanges | intros _; apply keeps_ret].
Qed.

End Frames.

(** ** The bootstrap *)

Section Bootstrap.
Context {W : Type} (E : Env W).
Implicit Types st : State W.

Lemma keeps_createViewState {B} (proj : State W -> B) viewId renderer d :
  (forall l, blind proj (set_nextLoc l)) ->
  (forall m, blind proj (set_viewStates m)) ->
  keeps proj (createViewState viewId renderer d).
Proof.
  intros Hn Hv st. unfold createViewState, bind, alloc, modify, ret. simpl.
  by rewrite Hv, Hn.
Qed.

(** Whatever the body of the [try] does, [finally { leaveView(oldView) }]
    leaves [oldView] current. *)
Lemma try_finally_leaveView {A} (body : M W A) (oldView : option loc) st :
  currentView (snd (try_finally body (leaveView oldView) st)) = oldView
  /\ fst (try_finally body (leaveView oldView) st) = fst (body st).
Proof.
  unfold try_finally, leaveView, modify. destruct (body st) as [r st1]. done.
Qed.

(** The features applied after the [finally]. *)
Lemma keeps_features {B} (proj : State W -> B) (componentDef : ComponentDef)
    (opts : CreateComponentOptionArgs) (component : Value) :
  (forall t, blind proj (set_trace t)) ->
  (forall b, blind proj (set_isDirty b)) ->
  (forall q, blind proj (set_frameQueue q)) ->
  (forall node v c, keeps proj (renderComponentOrTemplate E node v c)) ->
  (forall text token, keeps proj (createError E text token)) ->
  (forall id args, AppFn id ∈ default [] (opt_features opts) -> keeps proj (applyFn E id args)) ->
  keeps proj (match opt_features opts with
              | Some features =>
                  forEach features
                    (fun feature =>
                       bind (call E feature [component; VObj (def_id componentDef)])
                            (fun _ => ret tt))
              | None => ret tt
              end).
Proof.
  intros Ht Hd Hq Hpass Herr Hfeat.
  destruct (opt_features opts) as [features|]; [| apply keeps_ret].
  apply keeps_forEach. intros f Hf.
  apply keeps_bind; [| intros _; apply keeps_ret].
  apply keeps_call; try done. intros id ->. by apply Hfeat.
Qed.

End Bootstrap.

(** C2. [renderComponent] leaves current the render context that was current
    before the call, on every exit: normal return, an error of the host
    locator or the renderer factory (before [enterView]), an error of the
    factory or of anything else inside the [try] (undone by
    [finally { leaveView(oldView) }] whatever the body did to the current
    view), an error of a feature or of the first detection pass.  The
    collaborators that run outside the [try] are taken to be balanced
    themselves. *)
Theorem renderComponent_restores_current_view {W} (E : Env W) (componentType : ComponentType)
    (opts : CreateComponentOptionArgs) (st : State W) :
  (forall rf h, keeps currentView (locateHostElement E rf h)) ->
  (forall rf r t, keeps currentView (createRenderer E rf r t)) ->
  (forall node v c, keeps currentView (renderComponentOrTemplate E node v c)) ->
  (forall text token, keeps currentView (createError E text token)) ->
  (forall id args, AppFn id ∈ default [] (opt_features opts) ->
                   keeps currentView (applyFn E id args)) ->
  currentView (snd (renderComponent E componentType opts st)) = currentView st.
Proof.
  intros Hloc Hren Hpass Herr Hfeat. unfold renderComponent.
  apply bind_keeps_then; [by apply keeps_ext | | done]. intros hostNode st1 H1.
  apply bind_keeps_then; [by apply keeps_ext | | done]. intros renderer st2 H2.
  apply bind_keeps_then; [by apply keeps_createViewState | | congruence].
  intros newView st3 H3.
  unfold bind at 1. unfold enterView at 1, bind at 1, gets, modify, ret. simpl.
  unfold bind at 1.
  match goal with
  | |- context [try_finally ?body (leaveView ?old) ?s] =>
      destruct (try_finally_leaveView body old s) as [Hcur _];
      destruct (try_finally body (leaveView old) s) as [[component|e] st4]
  end; simpl in Hcur.
  - apply bind_keeps_then; [by apply keeps_features | | congruence]. intros _ st5 H5.
    apply bind_keeps_then; [by apply keeps_detectChanges | | congruence].
    intros _ st6 H6. simpl. congruence.
  - simpl. congruence.
Qed.

Lemma renderComponent_restores_current_view_witness :
  fst (renderComponent (Demo.env true) Demo.Failing no_opts Demo.nested)
    = Throw (AppError (VStr "factory failed"))
  /\ currentView (snd (renderComponent (Demo.env true) Demo.Failing no_opts Demo.nested))
     = Some 9%positive.
Proof.
  split; [vm_compute; reflexivity |].
  apply (renderComponent_restores_current_view (Demo.env true) Demo.Failing no_opts Demo.nested).
  - intros rf h st. simpl. unfold Demo.locate. repeat case_match; reflexivity.
  - intros rf r t st. reflexivity.
  - intros node v c st. reflexivity.
  - intros text token st. reflexivity.
  - intros id args Hin. simpl in Hin. by apply elem_of_nil in Hin.
Defined.

(** ** The back-reference set up by the bootstrap *)

Section BackReference.
Context {W : Type} (E : Env W).
Implicit Types st : State W.

Lemma try_finally_ok_inv {A} (body : M W A) (fin : M W unit) st a st' :
  try_finally body fin st = (Ok a, st') ->
  exists st1 u, body st = (Ok a, st1) /\ fin st1 = (Ok u, st').
Proof.
  unfold try_finally. destruct (body st) as [r st1].
  destruct (fin st1) as [[u|e] st2] eqn:Hfin; [| discriminate].
  intros [= -> <-]. eauto.
Qed.

Lemma array_set_0 (x : Slot) (a : list Slot) : array_set 0 x a !! 0%nat = Some x.
Proof.
  unfold array_set. destruct a as [|y a]; simpl; done.
Qed.

(** [hostElement] puts the record of the native handle at index 0 of the
    current view. *)
Lemma hostElement_spec (rNode : RElement) (def : ComponentDef) (v : loc) (s : ViewState) st :
  currentView st = Some v ->
  viewStates st !! v = Some s ->
  exists st1 s1 node,
    hostElement rNode def st = (Ok tt, st1)
    /\ currentView st1 = Some v
    /\ viewStates st1 !! v = Some s1
    /\ vs_data s1 !! 0%nat = Some (SNode node)
    /\ native node = rNode.
Proof.
  intros Hcur Hv. unfold hostElement, current_view_state, gets.
  unfold bind at 1 2. rewrite Hcur. unfold bind at 1. rewrite Hv. unfold ret at 1.
  unfold createViewState, alloc, store_slot, bind, modify, ret. simpl.
  eexists _, _, _. split; [reflexivity |]. simpl.
  split; [done |]. split; [apply lookup_insert_eq |]. simpl.
  split; [apply array_set_0 | done].
Qed.

(** [directive] attaches the record at index 0 to the instance. *)
Lemma directive_ok_inv (index : nat) (inst : Value) (def : ComponentDef)
    (v : loc) (s : ViewState) (node : LElement) st c st' :
  currentView st = Some v ->
  viewStates st !! v = Some s ->
  vs_data s !! 0%nat = Some (SNode node) ->
  directive index inst def st = (Ok c, st') ->
  exists l, c = VObj l /\ inst = VObj l /\ hostSymbol st' !! l = Some node.
Proof.
  intros Hcur Hv H0. unfold directive, current_view_state, gets.
  unfold bind at 1 2. rewrite Hcur. unfold bind at 1. rewrite Hv. unfold ret at 1.
  rewrite H0. destruct inst; try discriminate.
  unfold store_slot, bind, modify, ret. simpl. intros [= <- <-].
  exists l. simpl. by rewrite lookup_insert_eq.
Qed.

Lemma directive_undefined (index : nat) (def : ComponentDef) st c st' :
  directive index VUndefined def st = (Ok c, st') -> False.
Proof.
  unfold directive, current_view_state, gets, bind, throw, ret. simpl.
  destruct (currentView st) as [v|]; [| discriminate].
  destruct (viewStates st !! v) as [s|]; [| discriminate].
  destruct (vs_data s !! 0%nat) as [[]|]; discriminate.
Qed.

End BackReference.

Lemma keeps_run {W A B} (proj : State W -> B) (m : M W A) (st st' : State W) (r : Result A) :
  keeps proj m -> m st = (r, st') -> proj st' = proj st.
Proof. intros Hk Hrun. specialize (Hk st). by rewrite Hrun in Hk. Qed.

(** ** Further properties of [detectChanges] and [getHostElement] *)

Section DetectorCases.
Context {W : Type} (E : Env W).
Implicit Types (st : State W) (component : Value).

(** When the back-reference resolves and the diagnostics pass, [detectChanges]
    is the render pass followed by [isDirty = false]. *)
Lemma detectChanges_host l node st :
  hostSymbol st !! l = Some node ->
  (ngDevMode E = true -> data node <> None) ->
  detectChanges E (VObj l) st
  = bind (ext (renderComponentOrTemplate E node (view node) (VObj l)))
         (fun _ => modify (set_isDirty false)) st.
Proof.
  intros Hl Hdata.
  unfold detectChanges, bind, when, gets, field, ext, assertNotNull, ret. simpl.
  destruct (ngDevMode E); simpl; rewrite Hl; simpl; [| done].
  destruct (data node) eqn:Hd; [done | by destruct Hdata].
Qed.

End DetectorCases.

(** A successful [detectChanges] found a host node and ran the render pass
    on it. *)
Lemma detectChanges_ok_host {W} (E : Env W) (component : Value) (st st' : State W) :
  detectChanges E component st = (Ok tt, st') ->
  exists node st1,
    back_reference component st = Some node
    /\ (ngDevMode E = true -> data node <> None)
    /\ renderComponentOrTemplate E node (view node) component st = (Ok tt, st1)
    /\ st' = set_isDirty false (set_trace (trace st) st1).
Proof.
  intros H.
  destruct component as [| | z | s | l | f];
    try (unfold detectChanges, bind, when, gets, field, ext, assertNotNull, ret, throw in H;
         simpl in H; destruct (ngDevMode E); simpl in H;
         repeat (match type of H with
                 | context [createError E ?a ?b ?c] => destruct (createError E a b c) as [[?|?] ?]
                 end; simpl in H);
         discriminate).
  simpl. destruct (hostSymbol st !! l) as [node|] eqn:Hl.
  - assert (ngDevMode E = true -> data node <> None) as Hdata.
    { intros Hdev Hnone.
      unfold detectChanges, bind, when, gets, field, ext, assertNotNull, ret, throw in H.
      rewrite Hdev in H. simpl in H. rewrite Hl in H. simpl in H.
      rewrite Hnone in H. simpl in H. discriminate. }
    rewrite (detectChanges_host E l node st Hl Hdata) in H.
    unfold bind, ext, modify in H.
    destruct (renderComponentOrTemplate E node (view node) (VObj l) st) as [[[]|e] st1]
      eqn:Hpass; [| discriminate].
    injection H as <-. by exists node, st1.
  - unfold detectChanges, bind, when, gets, field, ext, assertNotNull, ret, throw in H.
    destruct (ngDevMode E); simpl in H; rewrite Hl in H; simpl in H.
    + destruct (createError E _ _ _) as [[?|?] ?]; simpl in H; discriminate.
    + discriminate.
Qed.

(** [detectChanges] of an empty value. *)
Lemma detectChanges_of_nullish {W} (E : Env W) (component : Value) (st : State W) :
  is_nullish component = true ->
  detectChanges E component st
  = (Throw (if ngDevMode E then AssertionError "component"
            else TypeError "cannot read property of null or undefined"), st).
Proof.
  intros Hn. unfold detectChanges, bind, when, assertNotNull.
  destruct component; try discriminate; destruct (ngDevMode E); reflexivity.
Qed.

(** X1. [detectChanges(component)] returns normally exactly when the
    back-reference of [component] resolves to a host node (whose [data], in a
    diagnostics build, is not null) and the render pass on that node, its view
    and the component returns; the state is then the one the pass left, with
    the dirty flag cleared. *)
Theorem detectChanges_ok_iff {W} (E : Env W) (component : Value) (st st' : State W) :
  detectChanges E component st = (Ok tt, st')
  <-> exists node st1,
        back_reference component st = Some node
        /\ (ngDevMode E = true -> data node <> None)
        /\ renderComponentOrTemplate E node (view node) component st = (Ok tt, st1)
        /\ st' = set_isDirty false (set_trace (trace st) st1).
Proof.
  split.
  - apply detectChanges_ok_host.
  - intros (node & st1 & Hb & Hdata & Hpass & ->).
    destruct component; simpl in Hb; try discriminate.
    rewrite (detectChanges_host E l node st Hb Hdata).
    unfold bind, ext, modify. by rewrite Hpass.
Qed.

(** X2. [detectChanges(null)] and [detectChanges(undefined)] raise and change
    nothing: the assertion on [component] in a diagnostics build, the
    TypeError of the property read otherwise. *)
Theorem detectChanges_nullish {W} (E : Env W) (component : Value) (st : State W) :
  is_nullish component = true ->
  detectChanges E component st
  = (Throw (if ngDevMode E then AssertionError "component"
            else TypeError "cannot read property of null or undefined"), st).
Proof. apply detectChanges_of_nullish. Qed.

Lemma detectChanges_nullish_witness :
  detectChanges (Demo.env false) VNull Demo.dirtied
  = (Throw (TypeError "cannot read property of null or undefined"), Demo.dirtied).
Proof.
  apply (detectChanges_nullish (Demo.env false) VNull Demo.dirtied). reflexivity.
Defined.

(** X3. On a non-empty value without back-reference, a diagnostics build of
    [detectChanges] calls [createError('Not a directive instance', component)]
    and does not throw what it returns: when [createError] returns, the
    failure is the TypeError of reading [hostNode.data]; an optimized build
    fails with the TypeError of reading [hostNode.view] and changes nothing.
    No render pass runs and the dirty flag is not cleared by either. *)
Theorem detectChanges_not_a_host {W} (E : Env W) (component : Value) (st : State W) :
  is_nullish component = false ->
  back_reference component st = None ->
  detectChanges E component st
  = if ngDevMode E then
      match createError E "Not a directive instance" component st with
      | (Ok _, st1) => (Throw (TypeError "data"), set_trace (trace st) st1)
      | (Throw e, st1) => (Throw e, set_trace (trace st) st1)
      end
    else (Throw (TypeError "view"), st).
Proof.
  intros Hn Hb.
  unfold detectChanges, bind, when, gets, field, ext, assertNotNull, ret, throw.
  destruct (ngDevMode E); destruct component; try discriminate;
    simpl in *; try rewrite Hb; simpl; try reflexivity;
    destruct (createError E _ _ st) as [[?|?] ?]; reflexivity.
Qed.

Lemma detectChanges_not_a_host_witness :
  detectChanges (Demo.env true) (VObj 7) Demo.dirtied = (Throw (TypeError "data"), Demo.dirtied)
  /\ isDirty Demo.dirtied = true.
Proof.
  split; [| vm_compute; reflexivity].
  rewrite (detectChanges_not_a_host (Demo.env true) (VObj 7) Demo.dirtied).
  - vm_compute; reflexivity.
  - reflexivity.
  - vm_compute; reflexivity.
Defined.

(** X4. A host node whose [data] is null stops a diagnostics build of
    [detectChanges] at the assertion on [hostNode.data], before the render
    pass and with the state unchanged; an optimized build runs the pass on
    it. *)
Theorem detectChanges_null_data {W} (E : Env W) (l : loc) (node : LElement) (st : State W) :
  hostSymbol st !! l = Some node ->
  data node = None ->
  detectChanges E (VObj l) st
  = if ngDevMode E then (Throw (AssertionError "hostNode.data"), st)
    else bind (ext (renderComponentOrTemplate E node (view node) (VObj l)))
              (fun _ => modify (set_isDirty false)) st.
Proof.
  intros Hl Hd. destruct (ngDevMode E) eqn:Hdev.
  - unfold detectChanges, bind, when, gets, field, ext, assertNotNull, ret, throw.
    simpl. rewrite Hdev. simpl. rewrite Hl. simpl. by rewrite Hd.
  - apply detectChanges_host; [done | congruence].
Qed.

Lemma detectChanges_null_data_witness :
  let node := {| native := Demo.widget; data := None; view := 1%positive |} in
  let st := set_hostSymbol (<[3%positive := node]> (hostSymbol Demo.booted)) Demo.booted in
  detectChanges (Demo.env true) Demo.widget_instance st = (Throw (AssertionError "hostNode.data"), st)
  /\ fst (detectChanges (Demo.env false) Demo.widget_instance st) = Ok tt.
Proof.
  intros node st. split.
  - apply (detectChanges_null_data (Demo.env true) 3 node st); reflexivity.
  - change Demo.widget_instance with (VObj 3).
    rewrite (detectChanges_null_data (Demo.env false) 3 node st); reflexivity.
Defined.

(** X5. [getHostElement] is a pure lookup: it never changes the state, and it
    returns a handle exactly when the back-reference of the value resolves,
    the handle being the [native] field of that host node. *)
Theorem getHostElement_ok_iff {W} (component : Value) (h : RElement) (st st' : State W) :
  getHostElement component st = (Ok h, st')
  <-> st' = st /\ exists node, back_reference component st = Some node /\ native node = h.
Proof.
  unfold getHostElement, bind, read_NG_HOST_SYMBOL, gets, field, throw, ret.
  split.
  - destruct component; simpl; try discriminate.
    destruct (hostSymbol st !! l) as [node|]; [| discriminate].
    intros [= <- <-]. eauto.
  - intros [-> (node & Hb & <-)].
    destruct component; simpl in Hb; try discriminate. by rewrite Hb.
Qed.

Lemma detectChanges_ok_iff_witness :
  detectChanges (Demo.env true) Demo.widget_instance Demo.dirtied
  = (Ok tt, set_isDirty false Demo.dirtied).
Proof.
  apply (detectChanges_ok_iff (Demo.env true) Demo.widget_instance Demo.dirtied).
  exists {| native := Demo.widget; data := Some 2%positive; view := 1%positive |}, Demo.dirtied.
  split; [vm_compute; reflexivity |]. split; [discriminate |].
  split; [reflexivity | vm_compute; reflexivity].
Defined.

Lemma getHostElement_ok_iff_witness :
  exists node, back_reference Demo.widget_instance Demo.booted = Some node
               /\ native node = Demo.widget.
Proof.
  apply (getHostElement_ok_iff Demo.widget_instance Demo.widget Demo.booted Demo.booted).
  vm_compute; reflexivity.
Defined.

(** ** Further properties of [markDirty] *)

(** X6. A diagnostics build of [markDirty] rejects [null] and [undefined]
    with the assertion on [component] before it looks at the dirty flag:
    nothing is scheduled and the state is unchanged.  An optimized build
    schedules them like any other value, and the closure it schedules raises
    whenever it is run. *)
Theorem markDirty_nullish {W} (E : Env W) (component : Value) (scheduler : option Fn)
    (st : State W) :
  is_nullish component = true ->
  (ngDevMode E = true ->
   markDirty E component scheduler st = (Throw (AssertionError "component"), st))
  /\ (ngDevMode E = false ->
      isDirty st = false ->
      markDirty E component None st
      = (Ok tt, set_frameQueue (frameQueue st ++ [Bound DetectChanges VNull [component]])
                  (set_isDirty true st))
      /\ forall args st2,
           call E (Bound DetectChanges VNull [component]) args st2
           = (Throw (TypeError "cannot read property of null or undefined"), st2)).
Proof.
  intros Hn. split.
  - intros Hdev. unfold markDirty, bind, when, assertNotNull. by rewrite Hdev, Hn.
  - intros Hdev Hclear. split.
    + unfold markDirty, bind, when, gets, modify, ret. rewrite Hdev. simpl. by rewrite Hclear.
    + intros args st2. rewrite call_bound. simpl. unfold bind.
      by rewrite detectChanges_of_nullish, Hdev.
Qed.

Lemma markDirty_nullish_witness :
  markDirty (Demo.env true) VUndefined (Some (AppFn 3)) Demo.booted
  = (Throw (AssertionError "component"), Demo.booted)
  /\ fst (markDirty (Demo.env false) VUndefined None Demo.booted) = Ok tt.
Proof.
  destruct (markDirty_nullish (Demo.env true) VUndefined (Some (AppFn 3)) Demo.booted)
    as [H1 _]; [reflexivity |].
  destruct (markDirty_nullish (Demo.env false) VUndefined None Demo.booted)
    as [_ H2]; [reflexivity |].
  split; [by apply H1 |].
  destruct H2 as [H2 _]; [reflexivity | vm_compute; reflexivity |]. by rewrite H2.
Defined.

(** X7. [markDirty] sets the dirty flag before it calls the scheduler and
    does not reset it when the scheduler raises: the error propagates, and if
    the flag is still set then every later [markDirty] returns at once, so no
    pass gets scheduled. *)
Theorem markDirty_scheduler_raises {W} (E : Env W) (component : Value) (scheduler : option Fn)
    (st st1 : State W) (e : Error) (calls : list (Value * option Fn)) :
  isDirty st = false ->
  (ngDevMode E = true -> is_nullish component = false) ->
  call E (default RequestAnimationFrame scheduler)
       [VFn (Bound DetectChanges VNull [component])] (set_isDirty true st) = (Throw e, st1) ->
  markDirty E component scheduler st = (Throw e, st1)
  /\ (isDirty st1 = true ->
      (ngDevMode E = true -> Forall (fun cs => is_nullish (fst cs) = false) calls) ->
      markDirty_all E calls st1 = (Ok tt, st1)).
Proof.
  intros Hclear Hn Hcall. split.
  - rewrite markDirty_first by done. unfold bind. by rewrite Hcall.
  - intros Hset Hcalls. by apply markDirty_all_noop.
Qed.

Lemma markDirty_scheduler_raises_witness :
  let st1 := set_isDirty true
               (set_trace (trace Demo.booted
                           ++ [EvCall 2 [VFn (Bound DetectChanges VNull [Demo.widget_instance])]])
                          Demo.booted) in
  markDirty (Demo.env true) Demo.widget_instance (Some (AppFn 2)) Demo.booted
  = (Throw (AppError (VStr "factory failed")), st1)
  /\ markDirty_all (Demo.env true) Demo.two_calls st1 = (Ok tt, st1).
Proof.
  intros st1.
  destruct (markDirty_scheduler_raises (Demo.env true) Demo.widget_instance (Some (AppFn 2))
              Demo.booted st1 (AppError (VStr "factory failed")) Demo.two_calls) as [H1 H2].
  - vm_compute; reflexivity.
  - reflexivity.
  - vm_compute; reflexivity.
  - split; [exact H1 |]. apply H2; [reflexivity |]. intros _. repeat constructor.
Defined.

(** X8. Every successful [detectChanges], of whatever instance, opens a new
    window: the next [markDirty] sets the flag again and calls its scheduler
    with a fresh closure for its own instance. *)
Theorem markDirty_after_pass_schedules_again {W} (E : Env W) (passed component : Value)
    (scheduler : option Fn) (st st' : State W) :
  detectChanges E passed st = (Ok tt, st') ->
  (ngDevMode E = true -> is_nullish component = false) ->
  markDirty E component scheduler st'
  = bind (call E (default RequestAnimationFrame scheduler)
               [VFn (Bound DetectChanges VNull [component])])
         (fun _ => ret tt) (set_isDirty true st').
Proof.
  intros Hpass Hn. apply markDirty_first; [| done].
  apply detectChanges_ok_inv in Hpass as [st1 ->]. done.
Qed.

Lemma markDirty_after_pass_schedules_again_witness :
  frameQueue (snd (markDirty (Demo.env true) Demo.widget_instance None
                     (set_isDirty false Demo.dirtied)))
  = [Bound DetectChanges VNull [Demo.widget_instance]]
  /\ frameQueue Demo.dirtied = [].
Proof.
  rewrite (markDirty_after_pass_schedules_again (Demo.env true) Demo.widget_instance
             Demo.widget_instance None Demo.dirtied (set_isDirty false Demo.dirtied)).
  - split; vm_compute; reflexivity.
  - vm_compute; reflexivity.
  - reflexivity.
Defined.

(** ** Further properties of the destroy lifecycle *)

Lemma forEach_app {W A} (l1 l2 : list A) (f : A -> M W unit) (st : State W) :
  forEach (l1 ++ l2) f st = bind (forEach l1 f) (fun _ => forEach l2 f) st.
Proof.
  revert st. induction l1 as [|x l1 IH]; intros st; [done |].
  simpl. unfold bind. destruct (f x st) as [[[]|e] st1]; [exact (IH st1) | done].
Qed.

(** X9. A destroy callback that raises stops [destroy()]: the callbacks before
    it have run, those after it are not called, the error propagates and
    [destroyed] is not set. *)
Theorem destroy_stops_at_raising_callback {W} (E : Env W) (h : loc)
    (before after : list positive) (id : positive) (e : Error)
    (st : State W) (obj : ViewRefObj) :
  viewRefs st !! h = Some obj ->
  registered obj = map AppFn (before ++ id :: after) ->
  Forall (quiet_callback E h) before ->
  failing_callback E h id e ->
  exists st',
    destroy E h st = (Throw e, st')
    /\ trace st' = trace st ++ calls_of (before ++ [id])
    /\ viewRefs st' !! h = Some obj.
Proof.
  intros Hobj Hreg Hq Hfail. unfold destroy, get_viewRef, gets.
  unfold bind at 1 2 3. rewrite Hobj. unfold ret at 1.
  unfold registered in Hreg.
  destruct (destroyFn obj) as [fns|]; simpl in Hreg; [| by destruct before].
  subst fns. rewrite map_app, forEach_app.
  destruct (forEach_quiet_callbacks E h before st Hq) as (st1 & Hrun & Htr & Hrefs).
  unfold bind at 1. rewrite Hrun. simpl.
  destruct (Hfail (set_trace (trace st1 ++ [EvCall id []]) st1)) as (st2 & Happ & Hkeep).
  unfold bind at 1 2 3. unfold emit, modify, ext. rewrite Happ.
  eexists. split; [reflexivity |]. simpl. split.
  - rewrite Htr. unfold calls_of. by rewrite map_app, app_assoc.
  - rewrite Hkeep. simpl. by rewrite Hrefs.
Qed.

Lemma destroy_stops_at_raising_callback_witness :
  exists st',
    destroy (Demo.env true) Demo.the_hostView Demo.with_callbacks
    = (Throw (AppError (VStr "factory failed")), st')
    /\ trace st' = trace Demo.with_callbacks ++ [EvCall 5 []; EvCall 2 []]
    /\ destroyed <$> (viewRefs st' !! Demo.the_hostView) = Some false.
Proof.
  destruct (destroy_stops_at_raising_callback (Demo.env true) Demo.the_hostView
              [5%positive] [6%positive] 2 (AppError (VStr "factory failed")) Demo.with_callbacks
              {| vr_detectChanges := Bound DetectChanges Demo.widget_instance [];
                 destroyed := false; destroyFn := Some [AppFn 5; AppFn 2; AppFn 6] |})
    as (st' & Hrun & Htr & Hobj).
  - vm_compute; reflexivity.
  - reflexivity.
  - repeat constructor; intros st; exists VUndefined, st; split; reflexivity.
  - intros st. exists st. split; reflexivity.
  - exists st'. split; [exact Hrun |]. split; [exact Htr |]. by rewrite Hobj.
Defined.

(** ** Further properties of the bootstrap *)

Section BootstrapTrace.
Context {W : Type} (E : Env W).
Implicit Types st : State W.

Lemma keeps_trace_ext {A} (f : Ext W A) : keeps trace (ext f).
Proof. intros st. unfold ext. by destruct (f st). Qed.

Lemma keeps_trace_detectChanges (component : Value) : keeps trace (detectChanges E component).
Proof.
  unfold detectChanges.
  apply keeps_bind; [apply keeps_when, keeps_assertNotNull | intros _].
  apply keeps_bind; [apply keeps_read_NG_HOST_SYMBOL | intros hostNode].
  apply keeps_bind.
  { apply keeps_when, keeps_bind; [apply keeps_trace_ext | intros _; apply keeps_ret]. }
  intros _. apply keeps_bind.
  { apply keeps_when, keeps_bind; [apply keeps_field | intros d; apply keeps_assertNotNull]. }
  intros _. apply keeps_bind; [apply keeps_field | intros nv].
  apply keeps_bind; [apply keeps_trace_ext | intros _]. by apply keeps_modify.
Qed.

(** A call adds to the trace the application function called, if any. *)
Lemma call_trace (f : Fn) (args : list Value) st (r : Result Value) st' :
  call E f args st = (r, st') -> trace st' = trace st ++ fn_calls f args.
Proof.
  destruct f as [id | | [] thisArg boundArgs]; simpl.
  - unfold bind, emit, modify, ext. simpl.
    destruct (applyFn E id args _) as [r1 s1]. by intros [= _ <-].
  - rewrite app_nil_r. destruct args as [|[] args]; try (by intros [= _ <-]).
  - rewrite app_nil_r. intros H.
    eapply (keeps_run trace); [| exact H].
    apply keeps_bind; [apply keeps_trace_detectChanges | intros _; apply keeps_ret].
Qed.

Lemma features_trace (features : list Fn) (args : list Value) st st' :
  forEach features (fun feature => bind (call E feature args) (fun _ => ret tt)) st
    = (Ok tt, st') ->
  trace st' = trace st ++ concat (map (fun feature => fn_calls feature args) features).
Proof.
  revert st. induction features as [|f features IH]; intros st; simpl.
  - intros [= <-]. by rewrite app_nil_r.
  - intros H. apply bind_ok_inv in H as ([] & st1 & Hc & H).
    apply bind_ok_inv in Hc as (v & st2 & Hc & Hr).
    apply call_trace in Hc. apply IH in H.
    unfold ret in Hr. injection Hr as <-.
    by rewrite H, Hc, <- app_assoc.
Qed.

Lemma keeps_trace_hostElement (rNode : RElement) (def : ComponentDef) :
  keeps (W:=W) trace (hostElement rNode def).
Proof.
  intros st.
  unfold hostElement, current_view_state, createViewState, store_slot, alloc, bind, gets,
    modify, ret, throw.
  simpl. destruct (currentView st) as [v|]; simpl; [| done].
  destruct (viewStates st !! v); done.
Qed.

Lemma keeps_trace_directive (index : nat) (inst : Value) (def : ComponentDef) :
  keeps (W:=W) trace (directive index inst def).
Proof.
  intros st.
  unfold directive, current_view_state, store_slot, bind, gets, modify, ret, throw.
  simpl. destruct (currentView st) as [v|]; simpl; [| done].
  destruct (viewStates st !! v) as [s|]; simpl; [| done].
  destruct (vs_data s !! 0%nat) as [[]|]; simpl; try done.
  destruct inst; done.
Qed.


End BootstrapTrace.

(** X11. When the host locator raises, [renderComponent] raises the same
    error at once; when the locator returns and the renderer factory raises,
    likewise.  In both cases nothing else has happened: no view state is
    created or entered and the component factory is not called, so the state
    is the one the collaborator left. *)
Theorem renderComponent_fails_before_entering {W} (E : Env W) (componentType : ComponentType)
    (opts : CreateComponentOptionArgs) (st : State W) (e : Error) :
  let rendererFactory := default domRendererFactory3 (opt_rendererFactory opts) in
  let componentDef := ngComponentDef componentType in
  (forall s1,
      locateHostElement E rendererFactory (host_or_tag opts componentDef) st = (Throw e, s1) ->
      renderComponent E componentType opts st = (Throw e, set_trace (trace st) s1))
  /\ (forall hostNode s1 s2,
      locateHostElement E rendererFactory (host_or_tag opts componentDef) st = (Ok hostNode, s1) ->
      createRenderer E rendererFactory hostNode (rendererType componentDef)
        (set_trace (trace st) s1) = (Throw e, s2) ->
      renderComponent E componentType opts st = (Throw e, set_trace (trace st) s2)).
Proof.
  intros rendererFactory componentDef. split.
  - intros s1 Hloc. unfold renderComponent, bind, ext.
    fold rendererFactory componentDef. by rewrite Hloc.
  - intros hostNode s1 s2 Hloc Hren. unfold renderComponent, bind, ext.
    fold rendererFactory componentDef. rewrite Hloc, Hren. done.
Qed.

Lemma renderComponent_fails_before_entering_witness :
  renderComponent (Demo.env true) Demo.XWidget Demo.missing_host Demo.nested
  = (Throw (RendererError "Host node with selector not found:" (VStr "nope")), Demo.nested).
Proof.
  destruct (renderComponent_fails_before_entering (Demo.env true) Demo.XWidget
              Demo.missing_host Demo.nested
              (RendererError "Host node with selector not found:" (VStr "nope"))) as [H _].
  apply (H Demo.nested). reflexivity.
Defined.



(** X13. When [renderComponent] returns, the calls it made to application
    functions are the factory, once and without arguments, then each feature
    in the order of [opts.features] with the instance and the definition; the
    instance is a heap object, and the dirty flag is clear, whatever it was
    before. *)
Theorem renderComponent_ok_calls {W} (E : Env W) (componentType : ComponentType)
    (opts : CreateComponentOptionArgs) (st st' : State W) (component : Value) :
  renderComponent E componentType opts st = (Ok component, st') ->
  exists id l,
    n (ngComponentDef componentType) = AppFn id
    /\ component = VObj l
    /\ trace st'
       = trace st ++ EvCall id []
                  :: feature_calls component (ngComponentDef componentType)
                       (default [] (opt_features opts))
    /\ isDirty st' = false.
Proof.
  intros H. unfold renderComponent in H. inv_bind H.
  unfold ret in H. injection H as <- <-.
  apply (keeps_run trace) in Hm; [| apply keeps_trace_ext].
  apply (keeps_run trace) in Hm0; [| apply keeps_trace_ext].
  apply (keeps_run trace) in Hm1; [| by apply keeps_createViewState].
  unfold enterView, bind, gets, modify, ret in Hm2. injection Hm2 as <- <-.
  apply try_finally_ok_inv in Hm3 as (stb & u & Hbody & Hleave).
  unfold leaveView, modify in Hleave. injection Hleave as _ <-.
  apply bind_ok_inv in Hbody as ([] & sth & Hhost & Hbody).
  apply (keeps_run trace) in Hhost; [| apply keeps_trace_hostElement].
  apply bind_ok_inv in Hbody as (inst & stf & Hcall & Hdir).
  pose proof Hdir as Htrd. apply (keeps_run trace) in Htrd; [| apply keeps_trace_directive].
  pose proof Hcall as Htrc. apply call_trace in Htrc.
  (* the first detection pass *)
  pose proof Hm5 as Hpass. destruct a5.
  apply detectChanges_ok_host in Hpass as (node & sp & Hb & _ & _ & ->).
  destruct a3 as [| | | | l |]; try discriminate Hb.
  apply (keeps_run trace) in Hm5; [| apply keeps_trace_detectChanges].
  (* the factory is a function of the application *)
  destruct (n (ngComponentDef componentType)) as [id | | [] thisArg boundArgs] eqn:Hn.
  - exists id, l. split; [done |]. split; [done |]. split; [| done].
    rewrite Hm5.
    assert (trace st5 = trace stb
                        ++ feature_calls (VObj l) (ngComponentDef componentType)
                             (default [] (opt_features opts))) as ->.
    { destruct (opt_features opts) as [features|]; simpl.
      - destruct a4. apply features_trace in Hm4. exact Hm4.
      - unfold ret in Hm4. injection Hm4 as _ <-. simpl. by rewrite app_nil_r. }
    rewrite Htrd, Htrc, Hhost. simpl. rewrite Hm1, Hm0, Hm.
    by rewrite <- app_assoc.
  - discriminate Hcall.
  - rewrite call_bound in Hcall. apply bind_ok_inv in Hcall as (u' & st3 & _ & Hret).
    unfold ret in Hret. injection Hret as <- <-.
    by apply directive_undefined in Hdir.
Qed.

Lemma renderComponent_ok_calls_witness :
  exists st',
    renderComponent (Demo.env true) Demo.XWidget Demo.with_features Demo.dirtied
    = (Ok (VObj 6), st')
    /\ trace st'
       = trace Demo.dirtied
         ++ [EvCall 1 []; EvCall 7 [VObj 6; VObj 100]; EvCall 8 [VObj 6; VObj 100]]
    /\ isDirty st' = false.
Proof.
  destruct (renderComponent (Demo.env true) Demo.XWidget Demo.with_features Demo.dirtied)
    as [r st'] eqn:Hrun.
  assert (r = Ok (VObj 6)) as ->.
  { change r with (fst (r, st')). rewrite <- Hrun. vm_compute; reflexivity. }
  destruct (renderComponent_ok_calls (Demo.env true) Demo.XWidget Demo.with_features
              Demo.dirtied st' (VObj 6) Hrun) as (id & l & Hn & _ & Htr & Hd).
  injection Hn as <-.
  exists st'. split; [reflexivity |]. split; [exact Htr | exact Hd].
Defined.

(** X14. The defaults of the options: no renderer factory means
    [domRendererFactory3], an empty selector as [host] means no host (the tag
    of the definition is used), and an empty list of features means none.
    [renderComponent] and [createComponentRef] do the same with the options
    as given and with the defaults written out. *)
Theorem bootstrap_option_defaults {W} (E : Env W) (componentType : ComponentType)
    (opts : CreateComponentOptionArgs) (st : State W) :
  renderComponent E componentType (explicit_opts opts) st = renderComponent E componentType opts st
  /\ createComponentRef E componentType (explicit_opts opts) st
     = createComponentRef E componentType opts st.
Proof.
  assert (forall s, renderComponent E componentType (explicit_opts opts) s
                    = renderComponent E componentType opts s) as Hsame.
  { intros s. unfold renderComponent.
    assert (host_or_tag (explicit_opts opts) (ngComponentDef componentType)
            = host_or_tag opts (ngComponentDef componentType)) as ->.
    { unfold host_or_tag, explicit_opts. simpl.
      destruct (opt_host opts) as [[r|sel]|]; try reflexivity.
      case_bool_decide; simpl; [reflexivity |]. by rewrite bool_decide_false. }
    simpl. destruct (opt_features opts) as [[|f fs]|]; reflexivity. }
  split; [apply Hsame |].
  unfold createComponentRef, bind. rewrite Hsame. reflexivity.
Qed.

(** X15. The reference returned by [createComponentRef]: its
    [changeDetectorRef] is the same object as its [hostView], so a
    [destroy()] through one shows through the other; the view reference
    starts out not destroyed and without callbacks, so that [destroy()] calls
    nothing; [location.nativeElement] is what [getHostElement] gives for the
    instance; the injector is the supplied one or [NULL_INJECTOR]. *)
Theorem createComponentRef_view_reference {W} (E : Env W) (ct : ComponentType)
    (opts : CreateComponentOptionArgs) (st st' : State W) (ref : ComponentRef) :
  createComponentRef E ct opts st = (Ok ref, st') ->
  changeDetectorRef ref = hostView ref
  /\ injector ref = default NULL_INJECTOR (opt_injector opts)
  /\ componentType ref = ct
  /\ getHostElement (instance ref) st' = (Ok (location_nativeElement ref), st')
  /\ destroyed <$> viewRefs st' !! hostView ref = Some false
  /\ exists st'',
       destroy E (changeDetectorRef ref) st' = (Ok tt, st'')
       /\ trace st'' = trace st'
       /\ destroyed <$> viewRefs st'' !! hostView ref = Some true.
Proof.
  intros H.
  destruct (createComponentRef_hostView E ct opts st st' ref H)
    as (obj & Hobj & _ & Hd & Hfns & Hsame).
  split; [done |].
  assert (injector ref = default NULL_INJECTOR (opt_injector opts)
          /\ componentType ref = ct
          /\ getHostElement (instance ref) st' = (Ok (location_nativeElement ref), st'))
    as (Hinj & Hct & Hget).
  { unfold createComponentRef in H. inv_bind H. unfold ret in H. injection H as <- <-.
    simpl. pose proof (getHostElement_state _ _ _ _ Hm1) as ->. done. }
  split; [done |]. split; [done |]. split; [done |].
  split; [by rewrite Hobj; simpl; rewrite Hd |].
  rewrite Hsame.
  destruct (destroy_once E (hostView ref) [] st' obj Hobj) as (st'' & Hrun & Htr & Hobj'').
  - unfold registered. by rewrite Hfns.
  - constructor.
  - exists st''. split; [done |]. split; [by rewrite Htr, app_nil_r |].
    by rewrite Hobj''.
Qed.

Lemma createComponentRef_view_reference_witness :
  exists st'',
    destroy (Demo.env true) Demo.the_hostView Demo.with_ref = (Ok tt, st'')
    /\ destroyed <$> viewRefs st'' !! Demo.the_hostView = Some true.
Proof.
  destruct (createComponentRef_view_reference (Demo.env true) Demo.XWidget no_opts Demo.st0
              Demo.with_ref
              {| location_nativeElement := Demo.widget; injector := NULL_INJECTOR;
                 instance := Demo.widget_instance; hostView := Demo.the_hostView;
                 changeDetectorRef := Demo.the_hostView; componentType := Demo.XWidget |})
    as (_ & _ & _ & _ & _ & st'' & Hrun & _ & Hd).
  - vm_compute; reflexivity.
  - exists st''. split; [exact Hrun | exact Hd].
Defined.

(** ** What [destroy()] does to the state *)

Section DestroyEffect.
Context {W : Type} (E : Env W).
Implicit Types (st : State W) (h : loc) (obj : ViewRefObj).

(** The [forEach] of [destroy] runs the body of every callback, in order. *)
Lemma forEach_callbacks_effect h ids st :
  Forall (quiet_callback E h) ids ->
  forEach (map AppFn ids) (fun fn => bind (call E fn []) (fun _ => ret tt)) st
  = (Ok tt, callbacks_effect E ids st).
Proof.
  intros Hq. revert st. induction Hq as [|id ids Hid _ IH]; intros st; [done |].
  destruct (Hid (set_trace (trace st ++ [EvCall id []]) st)) as (v & st1 & Happ & _).
  assert (callback_effect E id st = set_trace (trace st ++ [EvCall id []]) st1) as Hce.
  { unfold callback_effect. cbv zeta. by rewrite Happ. }
  simpl. unfold bind at 1 2 3. unfold emit, modify, ext. rewrite Happ. simpl.
  rewrite IH. unfold callbacks_effect. simpl. by rewrite Hce.
Qed.

Lemma callbacks_effect_quiet h ids st :
  Forall (quiet_callback E h) ids ->
  trace (callbacks_effect E ids st) = trace st ++ calls_of ids
  /\ viewRefs (callbacks_effect E ids st) !! h = viewRefs st !! h.
Proof.
  intros Hq.
  destruct (forEach_quiet_callbacks E h ids st Hq) as (st' & Hrun & Htr & Hrefs).
  rewrite (forEach_callbacks_effect h ids st Hq) in Hrun. by injection Hrun as <-.
Qed.

(** One [destroy()], as a function of the state. *)
Lemma destroy_effect_spec h ids st obj :
  viewRefs st !! h = Some obj ->
  registered obj = map AppFn ids ->
  Forall (quiet_callback E h) ids ->
  destroy E h st = (Ok tt, destroy_effect E h ids st)
  /\ trace (destroy_effect E h ids st) = trace st ++ calls_of ids
  /\ viewRefs (destroy_effect E h ids st) !! h = Some (mark_destroyed obj).
Proof.
  intros Hobj Hreg Hq.
  destruct (callbacks_effect_quiet h ids st Hq) as [Htr Hrefs].
  split; [| split].
  - unfold destroy, get_viewRef, gets.
    unfold bind at 1 2 3. rewrite Hobj. unfold ret at 1.
    unfold registered in Hreg. destruct (destroyFn obj) as [fns|]; simpl in Hreg.
    + subst fns. by rewrite (forEach_callbacks_effect h ids st Hq).
    + by destruct ids.
  - exact Htr.
  - unfold destroy_effect. simpl. by rewrite lookup_alter_eq, Hrefs, Hobj.
Qed.

Lemma destroy_times_effect h ids k st obj :
  viewRefs st !! h = Some obj ->
  registered obj = map AppFn ids ->
  Forall (quiet_callback E h) ids ->
  destroy_times E h k st = (Ok tt, Nat.iter k (destroy_effect E h ids) st).
Proof.
  intros Hobj Hreg Hq. revert st obj Hobj Hreg.
  induction k as [|k IH]; intros st obj Hobj Hreg; [done |].
  destruct (destroy_effect_spec h ids st obj Hobj Hreg Hq) as (Hrun & _ & Hobj').
  simpl destroy_times. erewrite bind_ok by exact Hrun.
  rewrite (IH _ (mark_destroyed obj) Hobj' Hreg). by rewrite Nat.iter_succ_r.
Qed.

End DestroyEffect.

(** C5. On a view reference with callbacks registered by [onDestroy], in
    that order, every [destroy()] runs the body of each registered callback
    once, in registration order, on the state as it is before the flag
    changes, and then sets [destroyed = true]: the state after [k] calls is
    that of [k] rounds of running all the bodies and marking the view
    reference.  The trace of calls grows by [k] copies of the list, and
    [destroyed] is true after every call. *)
Theorem destroy_runs_callbacks_every_time {W} (E : Env W) (h : loc)
    (ids0 ids : list positive) (k : nat) (st : State W) (obj : ViewRefObj) :
  viewRefs st !! h = Some obj ->
  registered obj = map AppFn ids0 ->
  Forall (quiet_callback E h) (ids0 ++ ids) ->
  exists st1 st' obj',
    onDestroy_all h (map AppFn ids) st = (Ok tt, st1)
    /\ st1 = set_viewRefs (viewRefs st1) st
    /\ destroy_times E h k st1 = (Ok tt, st')
    /\ st' = Nat.iter k (destroy_effect E h (ids0 ++ ids)) st1
    /\ bind (onDestroy_all h (map AppFn ids)) (fun _ => destroy_times E h k) st = (Ok tt, st')
    /\ trace st' = trace st ++ concat (replicate k (calls_of (ids0 ++ ids)))
    /\ viewRefs st' !! h = Some obj'
    /\ destroyed obj' = (if k is O then destroyed obj else true)
    /\ registered obj' = map AppFn (ids0 ++ ids).
Proof.
  intros Hobj Hreg Hq.
  destruct (onDestroy_all_spec h (map AppFn ids) st obj Hobj)
    as (st1 & obj1 & Hrun & Hst & _ & Hobj1 & _ & Hd & Hr).
  assert (registered obj1 = map AppFn (ids0 ++ ids)) as Hreg1.
  { by rewrite Hr, Hreg, map_app. }
  destruct (destroy_repeated E h (ids0 ++ ids) k st1 obj1 Hobj1 Hreg1 Hq)
    as (st' & Hrun' & Htr & Hobj').
  pose proof (destroy_times_effect E h (ids0 ++ ids) k st1 obj1 Hobj1 Hreg1 Hq) as Hexact.
  exists st1, st'. eexists. split; [exact Hrun |]. split; [exact Hst |].
  split; [exact Hrun' |]. split; [congruence |].
  split; [by erewrite bind_ok |]. split; [rewrite Htr, Hst; done |].
  split; [exact Hobj' |]. destruct k; simpl; done.
Qed.

Lemma destroy_runs_callbacks_every_time_witness :
  exists st',
    bind (onDestroy_all 1%positive [AppFn 5; AppFn 6])
         (fun _ => destroy_times Observer.env 1%positive 2) Observer.with_views
    = (Ok tt, st')
    /\ world st' = [false; false; true; true]
    /\ trace st' = [EvCall 5 []; EvCall 6 []; EvCall 5 []; EvCall 6 []]
    /\ destroyed <$> viewRefs st' !! 1%positive = Some true.
Proof.
  destruct (destroy_runs_callbacks_every_time Observer.env 1%positive [] [5; 6]%positive
              2 Observer.with_views
              {| vr_detectChanges := Bound DetectChanges VNull [];
                 destroyed := false; destroyFn := None |})
    as (st1 & st' & obj' & Hreg & _ & _ & Hst' & Hrun & _).
  - vm_compute; reflexivity.
  - reflexivity.
  - repeat constructor; intros st; eexists _, _; split; reflexivity.
  - exists st'. split; [exact Hrun |].
    vm_compute in Hreg. injection Hreg as <-. subst st'.
    repeat split; vm_compute; reflexivity.
Defined.

(** ** The operations of a view reference other than [destroy()] *)

Section ViewRefOps.
Context {W : Type} (E : Env W) (h : loc) (dc : Fn).
Implicit Types (st : State W) (obj : ViewRefObj).

(** The collaborators an operation can reach leave the view reference
    alone. *)
Hypothesis pass_keeps_h :
  forall node v c, keeps (fun st => viewRefs st !! h) (renderComponentOrTemplate E node v c).
Hypothesis createError_keeps_h :
  forall text token, keeps (fun st => viewRefs st !! h) (createError E text token).
Hypothesis dc_keeps_h :
  forall id, dc = AppFn id -> keeps (fun st => viewRefs st !! h) (applyFn E id []).

(** One operation: it calls at most the [detectChanges] function of the view
    reference, and changes the view reference at most by appending the
    callback it registers. *)
Lemma viewRef_op_step (op : ViewRefOp) st obj :
  viewRefs st !! h = Some obj ->
  vr_detectChanges obj = dc ->
  trace (snd (viewRef_op E h op st)) = trace st ++ op_calls dc [op]
  /\ exists obj',
       viewRefs (snd (viewRef_op E h op st)) !! h = Some obj'
       /\ vr_detectChanges obj' = dc
       /\ destroyed obj' = destroyed obj
       /\ registered obj' = registered obj ++ registrations [op].
Proof.
  intros Hobj Hdc. unfold op_calls, registrations. simpl. rewrite !app_nil_r.
  destruct op; simpl.
  - pose proof (onDestroy_spec h fn st obj Hobj) as Hspec.
    match type of Hspec with
    | _ = (_, ?s1) =>
        assert (snd (bind (onDestroy h fn) (fun _ => ret tt) st) = s1) as ->
          by (unfold bind; by rewrite Hspec)
    end.
    simpl. split; [by rewrite app_nil_r |]. rewrite lookup_insert_eq. eexists.
    split; [done |]. simpl. done.
  - destruct (call E dc [] st) as [r s1] eqn:Hcall.
    assert (snd (viewRef_detectChanges E h st) = s1) as ->.
    { unfold viewRef_detectChanges, get_viewRef, gets, bind, ret.
      rewrite Hobj, Hdc, Hcall. by destruct r. }
    assert (viewRefs s1 !! h = viewRefs st !! h) as Hkeep.
    { eapply (keeps_run (fun s => viewRefs s !! h)); [| exact Hcall].
      apply keeps_call; try done. }
    apply call_trace in Hcall.
    split; [done |]. exists obj. rewrite Hkeep, app_nil_r. by repeat split.
  - assert (snd (markForCheck E st) = st) as ->
      by (unfold markForCheck, when; by destruct (ngDevMode E)).
    rewrite !app_nil_r. split; [done |]. exists obj. by repeat split.
  - assert (snd (detach E st) = st) as ->
      by (unfold detach, when; by destruct (ngDevMode E)).
    rewrite !app_nil_r. split; [done |]. exists obj. by repeat split.
  - assert (snd (checkNoChanges E st) = st) as ->
      by (unfold checkNoChanges, when; by destruct (ngDevMode E)).
    rewrite !app_nil_r. split; [done |]. exists obj. by repeat split.
  - assert (snd (reattach E st) = st) as ->
      by (unfold reattach, when; by destruct (ngDevMode E)).
    rewrite !app_nil_r. split; [done |]. exists obj. by repeat split.
Qed.

(** Any number of operations, in any order. *)
Lemma viewRef_ops_spec (ops : list ViewRefOp) st obj :
  viewRefs st !! h = Some obj ->
  vr_detectChanges obj = dc ->
  trace (viewRef_ops E h ops st) = trace st ++ op_calls dc ops
  /\ exists obj',
       viewRefs (viewRef_ops E h ops st) !! h = Some obj'
       /\ vr_detectChanges obj' = dc
       /\ destroyed obj' = destroyed obj
       /\ registered obj' = registered obj ++ registrations ops.
Proof.
  revert st obj. induction ops as [|op ops IH]; intros st obj Hobj Hdc.
  - simpl. unfold op_calls, registrations. simpl. rewrite !app_nil_r.
    split; [done |]. exists obj. by repeat split.
  - destruct (viewRef_op_step op st obj Hobj Hdc) as (Htr & obj1 & Hobj1 & Hdc1 & Hd1 & Hr1).
    destruct (IH _ obj1 Hobj1 Hdc1) as (Htr' & obj' & Hobj' & Hdc' & Hd' & Hr').
    unfold viewRef_ops in *. simpl. split.
    + rewrite Htr', Htr. unfold op_calls. simpl. by rewrite !app_nil_r, <- app_assoc.
    + exists obj'. split; [done |]. split; [done |]. split; [congruence |].
      rewrite Hr', Hr1. unfold registrations. simpl. by rewrite !app_nil_r, <- app_assoc.
Qed.

End ViewRefOps.

Lemma op_calls_bound (target : Builtin) (thisArg : Value) (boundArgs : list Value)
    (ops : list ViewRefOp) :
  op_calls (Bound target thisArg boundArgs) ops = [].
Proof.
  unfold op_calls. induction ops as [|[] ops IH]; simpl; done.
Qed.

(** C8. [onDestroy] can be called any number of times, also on a destroyed
    view reference: each call only appends to the list of callbacks and runs
    nothing.  A registered callback is run by [destroy()] alone: whatever
    other operations of the view reference follow ([onDestroy],
    [detectChanges], [markForCheck], [detach], [checkNoChanges], [reattach]),
    in any number and order and whether they raise or not, the only
    application function they can call is the [detectChanges] function the
    view reference was built with, none at all when that is a bound closure
    as in [createComponentRef]; the callbacks only accumulate and the
    [destroyed] flag stays as it is. *)
Theorem onDestroy_only_registers {W} (E : Env W) (h : loc) (fns : list Fn) (st : State W)
    (obj : ViewRefObj) :
  viewRefs st !! h = Some obj ->
  (exists st' obj',
      onDestroy_all h fns st = (Ok tt, st')
      /\ trace st' = trace st
      /\ st' = set_viewRefs (viewRefs st') st
      /\ viewRefs st' !! h = Some obj'
      /\ destroyed obj' = destroyed obj
      /\ registered obj' = registered obj ++ fns)
  /\ forall ops : list ViewRefOp,
       (forall node v c,
           keeps (fun s => viewRefs s !! h) (renderComponentOrTemplate E node v c)) ->
       (forall text token, keeps (fun s => viewRefs s !! h) (createError E text token)) ->
       (forall id, vr_detectChanges obj = AppFn id ->
                   keeps (fun s => viewRefs s !! h) (applyFn E id [])) ->
       trace (viewRef_ops E h ops st) = trace st ++ op_calls (vr_detectChanges obj) ops
       /\ (forall target thisArg boundArgs,
              vr_detectChanges obj = Bound target thisArg boundArgs ->
              trace (viewRef_ops E h ops st) = trace st)
       /\ exists obj',
            viewRefs (viewRef_ops E h ops st) !! h = Some obj'
            /\ vr_detectChanges obj' = vr_detectChanges obj
            /\ destroyed obj' = destroyed obj
            /\ registered obj' = registered obj ++ registrations ops.
Proof.
  intros Hobj. split.
  - destruct (onDestroy_all_spec h fns st obj Hobj)
      as (st' & obj' & Hrun & Hst & _ & Hobj' & _ & Hd & Hr).
    exists st', obj'. repeat split; try done. by rewrite Hst.
  - intros ops Hpass Herr Hdc.
    destruct (viewRef_ops_spec E h (vr_detectChanges obj) Hpass Herr Hdc ops st obj Hobj eq_refl)
      as (Htr & obj' & Hobj' & Hdc' & Hd & Hr).
    split; [exact Htr |]. split.
    + intros target thisArg boundArgs Hb. rewrite Htr, Hb, op_calls_bound.
      apply app_nil_r.
    + exists obj'. by repeat split.
Qed.

Lemma onDestroy_only_registers_witness :
  trace (viewRef_ops (Demo.env true) Demo.the_hostView Demo.some_ops Demo.destroyed_ref)
  = trace Demo.destroyed_ref
  /\ exists obj',
       viewRefs (viewRef_ops (Demo.env true) Demo.the_hostView Demo.some_ops Demo.destroyed_ref)
         !! Demo.the_hostView = Some obj'
       /\ destroyed obj' = true
       /\ registered obj' = [AppFn 5; AppFn 6].
Proof.
  destruct (onDestroy_only_registers (Demo.env true) Demo.the_hostView [AppFn 5; AppFn 6]
              Demo.destroyed_ref
              {| vr_detectChanges := Bound DetectChanges Demo.widget_instance [];
                 destroyed := true; destroyFn := None |}) as [_ Hops].
  - vm_compute; reflexivity.
  - destruct (Hops Demo.some_ops) as (_ & Htr & obj' & Hobj' & _ & Hd & Hr).
    + intros node v c st. reflexivity.
    + intros text token st. reflexivity.
    + discriminate.
    + split; [by eapply Htr |]. exists obj'. split; [exact Hobj' |].
      split; [exact Hd | exact Hr].
Defined.

(** ** Properties of the state that computations preserve *)

Section Invariants.
Context {W : Type} (E : Env W) (P : State W -> Prop).
Implicit Types st : State W.

Lemma preserves_ret {A} (a : A) : preserves P (ret a).
Proof. by intros st. Qed.

Lemma preserves_throw {A} (e : Error) : preserves P (@throw W A e).
Proof. by intros st. Qed.

Lemma preserves_gets {A} (f : State W -> A) : preserves P (gets f).
Proof. by intros st. Qed.

Lemma preserves_bind {A C} (m : M W A) (k : A -> M W C) :
  preserves P m -> (forall a, preserves P (k a)) -> preserves P (bind m k).
Proof.
  intros Hm Hk st HP. unfold bind. specialize (Hm st HP).
  destruct (m st) as [[a|e] st1]; simpl in Hm; [by apply Hk | done].
Qed.

Lemma preserves_when (b : bool) (m : M W unit) : preserves P m -> preserves P (when b m).
Proof. destruct b; [done | intros _; apply preserves_ret]. Qed.

Lemma preserves_forEach {A} (l : list A) (f : A -> M W unit) :
  (forall x, x ∈ l -> preserves P (f x)) -> preserves P (forEach l f).
Proof.
  induction l as [|x l IH]; intros Hf; [apply preserves_ret |].
  simpl. apply preserves_bind; [apply Hf; left | intros _; apply IH].
  intros y Hy. apply Hf. by right.
Qed.

Lemma preserves_run {A} (m : M W A) st (r : Result A) st' :
  preserves P m -> P st -> m st = (r, st') -> P st'.
Proof. intros Hm HP Hrun. specialize (Hm st HP). by rewrite Hrun in Hm. Qed.

(** [P] does not depend on the trace, the dirty flag or the frame queue. *)
Hypothesis P_trace : forall t st, P st -> P (set_trace t st).
Hypothesis P_isDirty : forall b st, P st -> P (set_isDirty b st).
Hypothesis P_frameQueue : forall q st, P st -> P (set_frameQueue q st).

Lemma preserves_ext {A} (f : Ext W A) : preserves P f -> preserves P (ext f).
Proof.
  intros Hf st HP. unfold ext. specialize (Hf st HP).
  destruct (f st) as [r st1]. simpl in *. by apply P_trace.
Qed.

Lemma preserves_detectChanges (component : Value) :
  (forall node v c, preserves P (renderComponentOrTemplate E node v c)) ->
  (forall text token, preserves P (createError E text token)) ->
  preserves P (detectChanges E component).
Proof.
  intros Hpass Herr. unfold detectChanges.
  apply preserves_bind.
  { apply preserves_when. unfold assertNotNull.
    destruct (is_nullish component); [apply preserves_throw | apply preserves_ret]. }
  intros _. apply preserves_bind.
  { destruct component; simpl;
      first [apply preserves_throw | apply preserves_gets | apply preserves_ret]. }
  intros hostNode. apply preserves_bind.
  { apply preserves_when, preserves_bind; [by apply preserves_ext |].
    intros _. apply preserves_ret. }
  intros _. apply preserves_bind.
  { apply preserves_when, preserves_bind.
    - destruct hostNode; [apply preserves_ret | apply preserves_throw].
    - intros d. unfold assertNotNull.
      destruct (bool_decide _); [apply preserves_throw | apply preserves_ret]. }
  intros _. apply preserves_bind.
  { destruct hostNode; [apply preserves_ret | apply preserves_throw]. }
  intros nv. apply preserves_bind; [by apply preserves_ext |].
  intros _ st HP. by apply P_isDirty.
Qed.

Lemma preserves_call (f : Fn) (args : list Value) :
  (forall node v c, preserves P (renderComponentOrTemplate E node v c)) ->
  (forall text token, preserves P (createError E text token)) ->
  (forall id, f = AppFn id -> preserves P (applyFn E id args)) ->
  preserves P (call E f args).
Proof.
  intros Hpass Herr Happ. destruct f as [id | | [] thisArg boundArgs]; simpl.
  - apply preserves_bind; [intros st HP; by apply P_trace |].
    intros _. apply preserves_ext. by apply Happ.
  - destruct args as [|[] args]; try apply preserves_throw.
    apply preserves_bind; [intros st HP; by apply P_frameQueue |].
    intros _. apply preserves_ret.
  - apply preserves_bind; [by apply preserves_detectChanges | intros _; apply preserves_ret].
Qed.

End Invariants.

Section BootstrapBackReference.
Context {W : Type} (E : Env W).
Implicit Types st : State W.

(** The body of the [try] in [renderComponent]: the instance gets the host
    node of the located element as its back-reference. *)
Lemma bootstrap_body_ok_inv (hostNode : RElement) (def : ComponentDef)
    (v : loc) (s : ViewState) st c st' :
  (forall id, n def = AppFn id -> keeps_host_entry (applyFn E id [])) ->
  currentView st = Some v ->
  viewStates st !! v = Some s ->
  bind (hostElement hostNode def)
       (fun _ => bind (call E (n def) []) (fun inst => directive 1 inst def)) st = (Ok c, st') ->
  exists l node, c = VObj l /\ hostSymbol st' !! l = Some node /\ native node = hostNode.
Proof.
  intros Hfac Hcur Hv H.
  destruct (hostElement_spec hostNode def v s st Hcur Hv)
    as (st1 & s1 & node & Hrun & Hcur1 & Hv1 & H0 & Hnat).
  erewrite bind_ok in H by exact Hrun.
  apply bind_ok_inv in H as (inst & st2 & Hcall & Hdir).
  destruct (n def) as [id | | [] thisArg boundArgs].
  - assert (currentView st2 = Some v
            /\ exists s2, viewStates st2 !! v = Some s2
                          /\ vs_data s2 !! 0%nat = Some (SNode node)) as (Hcur2 & s2 & Hv2 & H02).
    { simpl in Hcall. unfold bind, emit, modify, ext in Hcall. simpl in Hcall.
      match type of Hcall with
      | context [applyFn E id [] ?s0] =>
          pose proof (Hfac id eq_refl v node s0) as K;
          destruct (applyFn E id [] s0) as [r sf]
      end.
      simpl in K. injection Hcall as _ <-. simpl. apply K. eauto. }
    destruct (directive_ok_inv 1 inst def v s2 node st2 c st' Hcur2 Hv2 H02 Hdir)
      as (l & -> & _ & Hl).
    eauto.
  - discriminate Hcall.
  - rewrite call_bound in Hcall. apply bind_ok_inv in Hcall as (u & st3 & _ & Hret).
    unfold ret in Hret. injection Hret as <- <-.
    by apply directive_undefined in Hdir.
Qed.

(** The features leave a back-reference in place when each of them does. *)
Lemma preserves_features (P : State W -> Prop) (componentDef : ComponentDef)
    (opts : CreateComponentOptionArgs) (component : Value) :
  (forall t st, P st -> P (set_trace t st)) ->
  (forall b st, P st -> P (set_isDirty b st)) ->
  (forall q st, P st -> P (set_frameQueue q st)) ->
  (forall node v c, preserves P (renderComponentOrTemplate E node v c)) ->
  (forall text token, preserves P (createError E text token)) ->
  (forall id args, AppFn id ∈ default [] (opt_features opts) ->
                   preserves P (applyFn E id args)) ->
  preserves P (match opt_features opts with
               | Some features =>
                   forEach features
                     (fun feature =>
                        bind (call E feature [component; VObj (def_id componentDef)])
                             (fun _ => ret tt))
               | None => ret tt
               end).
Proof.
  intros Pt Pd Pq Hpass Herr Hfeat.
  destruct (opt_features opts) as [features|]; [| apply preserves_ret].
  apply preserves_forEach. intros f Hf.
  apply preserves_bind; [| intros _; apply preserves_ret].
  apply preserves_call; try done. intros id ->. by apply Hfeat.
Qed.

End BootstrapBackReference.

(** C9. For the instance returned by [renderComponent], [getHostElement]
    returns the native handle the host locator gave for the [host] option (or,
    without one, for the tag of the definition) during that bootstrap; a
    locator that hands back the element it is given makes that the element
    passed as [host].  The factory is taken to leave the entered view current
    with its element entry in place; the features, the instruction interpreter
    and [createError] are taken not to detach or redirect a back-reference
    that exists.  All of them may attach back-references of their own (child
    directives) and create or change other view states. *)
Theorem getHostElement_returns_bootstrap_host {W} (E : Env W) (componentType : ComponentType)
    (opts : CreateComponentOptionArgs) (st st' : State W) (component : Value) :
  (forall id, n (ngComponentDef componentType) = AppFn id ->
              keeps_host_entry (applyFn E id [])) ->
  (forall id args, AppFn id ∈ default [] (opt_features opts) ->
                   keeps_back_references (applyFn E id args)) ->
  (forall node v c, keeps_back_references (renderComponentOrTemplate E node v c)) ->
  (forall text token, keeps_back_references (createError E text token)) ->
  renderComponent E componentType opts st = (Ok component, st') ->
  exists h st1,
    locateHostElement E (default domRendererFactory3 (opt_rendererFactory opts))
      (host_or_tag opts (ngComponentDef componentType)) st = (Ok h, st1)
    /\ getHostElement component st' = (Ok h, st')
    /\ (opt_host opts = None ->
        host_or_tag opts (ngComponentDef componentType)
        = HostSelector (tag (ngComponentDef componentType)))
    /\ (forall r, opt_host opts = Some (HostElement r) ->
                  (forall rf s0, fst (locateHostElement E rf (HostElement r) s0) = Ok r) ->
                  h = r).
Proof.
  intros Hfac Hfeat Hpass Herr H. unfold renderComponent in H. inv_bind H.
  unfold ret in H. injection H as <- <-.
  (* the host locator *)
  unfold ext in Hm.
  destruct (locateHostElement E _ _ st) as [r0 s0] eqn:Hloc.
  injection Hm as -> Hst0.
  (* the fresh view, entered *)
  unfold createViewState, alloc, bind, modify, ret in Hm1. simpl in Hm1.
  injection Hm1 as <- <-.
  unfold enterView, bind, gets, modify, ret in Hm2. simpl in Hm2.
  injection Hm2 as <- <-.
  (* the body of the try *)
  apply try_finally_ok_inv in Hm3 as (stb & u & Hbody & Hleave).
  eapply (bootstrap_body_ok_inv E) in Hbody as (l & node & -> & Hl & Hnat);
    [| done | reflexivity | apply lookup_insert_eq].
  unfold leaveView, modify in Hleave. injection Hleave as _ <-.
  (* the features and the first pass keep the back-reference *)
  set (P := fun s : State W => hostSymbol s !! l = Some node).
  assert (P st5) as HP5.
  { eapply (preserves_run P); [| | exact Hm4]; [| exact Hl].
    apply preserves_features; try done.
    - intros n0 v c. apply Hpass.
    - intros text token. apply Herr.
    - intros id args Hin. by apply Hfeat. }
  assert (P st6) as HP6.
  { eapply (preserves_run P); [| exact HP5 | exact Hm5].
    apply preserves_detectChanges; try done.
    - intros n0 v c. apply Hpass.
    - intros text token. apply Herr. }
  exists a, s0. split; [done |]. split; [| split].
  - unfold getHostElement, bind, read_NG_HOST_SYMBOL, gets.
    unfold P in HP6. rewrite HP6. simpl. by rewrite Hnat.
  - unfold host_or_tag. by intros ->.
  - intros r Hr Hid. unfold host_or_tag in Hloc. rewrite Hr in Hloc.
    specialize (Hid (default domRendererFactory3 (opt_rendererFactory opts)) st).
    rewrite Hloc in Hid. simpl in Hid. by injection Hid.
Qed.

Lemma getHostElement_returns_bootstrap_host_witness :
  exists st',
    renderComponent Demo.env_with_child Demo.XWidget no_opts Demo.st0
    = (Ok Demo.widget_instance, st')
    /\ getHostElement Demo.widget_instance st' = (Ok Demo.widget, st')
    /\ is_Some (hostSymbol st' !! 50%positive).
Proof.
  destruct (renderComponent Demo.env_with_child Demo.XWidget no_opts Demo.st0)
    as [r st'] eqn:Hrun.
  assert (r = Ok Demo.widget_instance) as ->.
  { change r with (fst (r, st')). rewrite <- Hrun. vm_compute; reflexivity. }
  destruct (getHostElement_returns_bootstrap_host Demo.env_with_child Demo.XWidget no_opts
              Demo.st0 st' Demo.widget_instance) as (h & st1 & Hloc & Hget & _).
  - intros id _ v node st [Hcur Hv]. simpl. unfold Demo.apply_fn.
    repeat case_match; simpl; done.
  - intros id args Hin. simpl in Hin. by apply elem_of_nil in Hin.
  - intros node v c l n0 st Hl. simpl. repeat case_match; simpl; try done.
    rewrite lookup_insert_ne; [done | congruence].
  - intros text token l n0 st Hl. exact Hl.
  - exact Hrun.
  - exists st'. split; [reflexivity |].
    vm_compute in Hloc. injection Hloc as <- _. split; [exact Hget |].
    change st' with (snd (Ok Demo.widget_instance, st')). rewrite <- Hrun.
    vm_compute. eauto.
Defined.

(** X10. Each view reference has its own list of callbacks and its own
    flag: registering on one changes no other, and [destroy()] of another
    runs only that one's callbacks and marks only that one; every view
    reference the callbacks leave alone, the one registered on included, is
    after the [destroy()] as it was before, its [destroyed] flag unchanged. *)
Theorem destroy_runs_own_callbacks_only {W} (E : Env W) (h h' : loc) (fns : list Fn)
    (ids' : list positive) (st : State W) (obj obj' : ViewRefObj) :
  h <> h' ->
  viewRefs st !! h = Some obj ->
  viewRefs st !! h' = Some obj' ->
  registered obj' = map AppFn ids' ->
  Forall (quiet_callback E h') ids' ->
  exists st1 st',
    onDestroy_all h fns st = (Ok tt, st1)
    /\ viewRefs st1 !! h' = Some obj'
    /\ destroy E h' st1 = (Ok tt, st')
    /\ trace st' = trace st ++ calls_of ids'
    /\ viewRefs st' !! h' = Some (mark_destroyed obj')
    /\ (forall h'', h'' <> h' -> Forall (quiet_callback E h'') ids' ->
                    viewRefs st' !! h'' = viewRefs st1 !! h'')
    /\ (Forall (quiet_callback E h) ids' ->
        exists obj1, viewRefs st' !! h = Some obj1
                     /\ vr_detectChanges obj1 = vr_detectChanges obj
                     /\ destroyed obj1 = destroyed obj
                     /\ registered obj1 = registered obj ++ fns).
Proof.
  intros Hne Hobj Hobj' Hreg Hq.
  destruct (onDestroy_all_spec h fns st obj Hobj)
    as (st1 & obj1 & Hrun & Hst & Hoth & Hobj1 & Hdc1 & Hd1 & Hr1).
  assert (viewRefs st1 !! h' = Some obj') as Hobj1' by (rewrite Hoth; done).
  destruct (destroy_effect_spec E h' ids' st1 obj' Hobj1' Hreg Hq) as (Hrun' & Htr & Hd).
  assert (forall h'', h'' <> h' -> Forall (quiet_callback E h'') ids' ->
                      viewRefs (destroy_effect E h' ids' st1) !! h'' = viewRefs st1 !! h'')
    as Hothers.
  { intros h'' Hne'' Hq''. unfold destroy_effect. simpl.
    rewrite lookup_alter_ne by done.
    by destruct (callbacks_effect_quiet E h'' ids' st1 Hq''). }
  exists st1, (destroy_effect E h' ids' st1).
  split; [done |]. split; [done |]. split; [done |].
  split; [by rewrite Htr, Hst |]. split; [done |]. split; [exact Hothers |].
  intros Hqh. exists obj1. rewrite Hothers by done. by repeat split.
Qed.

Lemma destroy_runs_own_callbacks_only_witness :
  exists st1 st',
    onDestroy_all 1%positive [AppFn 7] Observer.with_callback_on_2 = (Ok tt, st1)
    /\ destroy Observer.env 2%positive st1 = (Ok tt, st')
    /\ trace st' = [EvCall 8 []]
    /\ destroyed <$> viewRefs st' !! 2%positive = Some true
    /\ destroyed <$> viewRefs st' !! 1%positive = Some false.
Proof.
  destruct (destroy_runs_own_callbacks_only Observer.env 1%positive 2%positive
              [AppFn 7] [8%positive] Observer.with_callback_on_2
              {| vr_detectChanges := Bound DetectChanges VNull [];
                 destroyed := false; destroyFn := None |}
              {| vr_detectChanges := Bound DetectChanges VNull [];
                 destroyed := false; destroyFn := Some [AppFn 8] |})
    as (st1 & st' & H1 & _ & H2 & Htr & Hd2 & _ & Hh).
  - discriminate.
  - vm_compute; reflexivity.
  - vm_compute; reflexivity.
  - reflexivity.
  - repeat constructor. intros st. eexists _, _. split; reflexivity.
  - exists st1, st'. split; [exact H1 |]. split; [exact H2 |].
    split; [exact Htr |]. split; [by rewrite Hd2 |].
    destruct Hh as (obj1 & Hobj1 & _ & Hd1 & _).
    + repeat constructor. intros st. eexists _, _. split; reflexivity.
    + rewrite Hobj1. simpl. by rewrite Hd1.
Defined.
